(** * Pension projection arithmetic: future value, vehicle comparison, winner

    A shallow embedding of the calculation code of the pension calculator:

    - [calculateFutureValue], the validated compound-interest helper of the
      calculator page (a [useCallback] with a [try]/[catch] around two
      [throw]s);
    - [comparison], the body of the [useMemo] of [DebekaComparison.tsx] that
      projects the three vehicles (Debeka fund-linked pension, ETF savings
      plan, classic pension insurance);
    - [winner], the nested conditional below it, and the two places of the
      page that render [comparison.taxAdvantage].

    Numbers.  A JavaScript [number] is modelled by an exact rational ([Q]):
    rounding and overflow of IEEE doubles are outside this model.  Ages and
    year counts are integers ([Z]), so that [Math.pow] only meets integer
    exponents.  Rational results are compared with [==] ([Qeq]).

    Doubles.  Where rounding, overflow or [NaN] decide a statement, the same
    code is embedded a second time over binary64 floats ([Double]), and the
    winner is stated over the values a number can have ([Number]): [NaN],
    the two infinities and the finite rationals.

    Partiality.  A division by a literal ([x / 12]) is written with the
    division of [Q].  A division by a computed quantity goes through
    [jsdiv], and a power through [Math_pow]; both leave the finite numbers
    on a zero denominator, which the model records as [NotFinite] and does
    not follow any further. *)

Set Warnings "-inexact-float".

From Stdlib Require Import QArith Qpower Qfield ZArith List String Bool Lia Lqa
  Morphisms Setoid Floats Uint63.
Import ListNotations.

Local Open Scope Q_scope.

(** ** Completions of a JavaScript computation *)

Module Js.

(** What the evaluation of an expression or of a function body ends in: a
    value, a thrown [Error] (with its message), or a number that is not
    finite. *)
Inductive Completion (A : Type) : Type :=
| Return (a : A)
| Throw (message : string)
| NotFinite.

Arguments Return {A} a.
Arguments Throw {A} message.
Arguments NotFinite {A}.

Definition bind {A B : Type} (c : Completion A) (k : A -> Completion B)
  : Completion B :=
  match c with
  | Return a => k a
  | Throw e => Throw e
  | NotFinite => NotFinite
  end.

(** [a / b] for a computed denominator. *)
Definition jsdiv (a b : Q) : Completion Q :=
  if Qeq_bool b 0 then NotFinite else Return (a / b).

(** [Math.pow(b, e)] for an integer exponent: zero to a negative power is
    [Infinity]. *)
Definition Math_pow (b : Q) (e : Z) : Completion Q :=
  if Qeq_bool b 0 && (e <? 0)%Z then NotFinite else Return (b ^ e).

(** [a > b] and [a < b] on numbers. *)
Definition greaterThan (a b : Q) : bool := negb (Qle_bool a b).
Definition lessThan (a b : Q) : bool := negb (Qle_bool b a).

End Js.

Import Js.

Notation "x <- c ;; k" := (bind c (fun x => k))
  (at level 61, c at next level, right associativity).

(** ** The validated compound-interest helper

    [calculateFutureValue(monthlyPayment, annualRate, years)] of the
    calculator page.  The body of its [try] block comes first; the function
    itself adds the [catch], which writes to the console and returns [0]. *)

Definition calculateFutureValue_try
    (monthlyPayment annualRate : Q) (years : Z) : Completion Q :=
  if lessThan monthlyPayment 0 || lessThan annualRate 0 || (years <? 0)%Z
  then
    Throw "Values must be non-negative"
  else if (years >? 100)%Z then
    Throw "Investment period too long"
  else
    let monthlyRate := annualRate / 12 in
    let totalMonths := (years * 12)%Z in
    if Qeq_bool monthlyRate 0 then
      Return (monthlyPayment * inject_Z totalMonths)
    else
      p <- Math_pow (1 + monthlyRate) totalMonths ;;
      d <- jsdiv (p - 1) monthlyRate ;;
      Return (monthlyPayment * d).

(** One call of [console.error(label, error)]. *)
Record ConsoleError : Type := mkConsoleError
  { label : string; errorMessage : string }.

(** The result handed to the caller, and the lines written to the console. *)
Definition calculateFutureValue
    (monthlyPayment annualRate : Q) (years : Z)
  : Completion Q * list ConsoleError :=
  match calculateFutureValue_try monthlyPayment annualRate years with
  | Throw error => (Return 0, [mkConsoleError "Calculation error:" error])
  | completion => (completion, [])
  end.

(** ** The three-vehicle comparison *)

Record ComparisonInputs : Type := mkInputs
  { currentAge : Z;
    monthlyContribution : Q;
    currentAssets : Q;
    retirementAge : Z }.

Record VehicleResult : Type := mkVehicle
  { finalCapital : Q;
    monthlyPension : Q;
    grossMonthlyPension : Q;
    totalTax : Q;
    netReturn : Q;
    taxRate : Q }.

Record ComparisonResult : Type := mkComparison
  { debeka : VehicleResult;
    etf : VehicleResult;
    klassisch : VehicleResult;
    taxAdvantage : Q;
    totalContributions : Q;
    years : Z }.

(** The constants of the [useMemo] body that do not depend on the inputs. *)

Definition debekaGrowthRate : Q := 0.06.
Definition debekaCosts : Q := 0.013.
Definition debekaNetGrowth : Q := debekaGrowthRate - debekaCosts.
Definition debekaMonthlyReturn : Q := debekaNetGrowth / 12.
Definition debekaErtragsanteil : Q := 0.17.

Definition etfGrowthRate : Q := 0.07.
Definition etfCosts : Q := 0.003.
Definition etfGrossReturn : Q := etfGrowthRate - etfCosts.
Definition abgeltungssteuer : Q := 0.26375.
Definition etfAnnualGains : Q := etfGrossReturn.
Definition etfTaxOnGains : Q := etfAnnualGains * abgeltungssteuer.
Definition etfNetGrowth : Q := etfGrossReturn - etfTaxOnGains.
Definition etfMonthlyReturn : Q := etfNetGrowth / 12.

Definition klassischGrowthRate : Q := 0.02.
Definition klassischCosts : Q := 0.01.
Definition klassischNetGrowth : Q := klassischGrowthRate - klassischCosts.
Definition klassischMonthlyReturn : Q := klassischNetGrowth / 12.

Definition retirementYears : Q := 20.

(** The body of [const comparison = useMemo(() => { ... }, [inputs])]. *)
Definition comparison (inputs : ComparisonInputs)
  : Completion ComparisonResult :=
  let years := (retirementAge inputs - currentAge inputs)%Z in
  let months := (years * 12)%Z in
  let totalContributions :=
    monthlyContribution inputs * inject_Z months + currentAssets inputs in
  (* Debeka: tax-free accumulation, Ertragsanteil taxation of the payout *)
  debekaLump <- Math_pow (1 + debekaNetGrowth) years ;;
  debekaPow <- Math_pow (1 + debekaMonthlyReturn) months ;;
  debekaAnnuity <- jsdiv (debekaPow - 1) debekaMonthlyReturn ;;
  let debekaFutureValue :=
    currentAssets inputs * debekaLump
    + monthlyContribution inputs * debekaAnnuity in
  let debekaGrossMonthlyPension := (debekaFutureValue * 0.04) / 12 in
  let debekaTaxableAmount := debekaGrossMonthlyPension * debekaErtragsanteil in
  let debekaTax := debekaTaxableAmount * 0.25 in
  let debekaNetMonthlyPension := debekaGrossMonthlyPension - debekaTax in
  (* ETF: capital-gains tax every year of the accumulation *)
  etfLump <- Math_pow (1 + etfNetGrowth) years ;;
  etfPow <- Math_pow (1 + etfMonthlyReturn) months ;;
  etfAnnuity <- jsdiv (etfPow - 1) etfMonthlyReturn ;;
  let etfFutureValue :=
    currentAssets inputs * etfLump
    + monthlyContribution inputs * etfAnnuity in
  let etfNetMonthlyPension := (etfFutureValue * 0.04) / 12 in
  (* classic insurance: as Debeka, with its own growth *)
  klassischLump <- Math_pow (1 + klassischNetGrowth) years ;;
  klassischPow <- Math_pow (1 + klassischMonthlyReturn) months ;;
  klassischAnnuity <- jsdiv (klassischPow - 1) klassischMonthlyReturn ;;
  let klassischFutureValue :=
    currentAssets inputs * klassischLump
    + monthlyContribution inputs * klassischAnnuity in
  let klassischGrossMonthlyPension := (klassischFutureValue * 0.04) / 12 in
  let klassischTaxableAmount :=
    klassischGrossMonthlyPension * debekaErtragsanteil in
  let klassischTax := klassischTaxableAmount * 0.25 in
  let klassischNetMonthlyPension :=
    klassischGrossMonthlyPension - klassischTax in
  (* tax advantage, Debeka against ETF *)
  let debeka30YearTax := debekaTax * 12 * retirementYears in
  etfTaxDuringAccumulation <-
    jsdiv (monthlyContribution inputs * 12 * inject_Z years * etfTaxOnGains)
          etfGrossReturn ;;
  let totalEtfTax := etfTaxDuringAccumulation in
  let taxAdvantage := totalEtfTax - debeka30YearTax in
  Return
    {| debeka :=
         {| finalCapital := debekaFutureValue;
            monthlyPension := debekaNetMonthlyPension;
            grossMonthlyPension := debekaGrossMonthlyPension;
            totalTax := debeka30YearTax;
            netReturn := debekaNetGrowth * 100;
            taxRate := debekaErtragsanteil * 100 |};
       etf :=
         {| finalCapital := etfFutureValue;
            monthlyPension := etfNetMonthlyPension;
            grossMonthlyPension := etfNetMonthlyPension;
            totalTax := totalEtfTax;
            netReturn := etfNetGrowth * 100;
            taxRate := abgeltungssteuer * 100 |};
       klassisch :=
         {| finalCapital := klassischFutureValue;
            monthlyPension := klassischNetMonthlyPension;
            grossMonthlyPension := klassischGrossMonthlyPension;
            totalTax := klassischTax * 12 * retirementYears;
            netReturn := klassischNetGrowth * 100;
            taxRate := debekaErtragsanteil * 100 |};
       taxAdvantage := taxAdvantage;
       totalContributions := totalContributions;
       years := years |}.

(** ** Winner and the rendering of the tax advantage *)

Inductive Vehicle : Type := Debeka | Etf | Klassisch.

(** The result card of a vehicle, in the order the page lists them. *)
Definition card (v : Vehicle) (c : ComparisonResult) : VehicleResult :=
  match v with
  | Debeka => debeka c
  | Etf => etf c
  | Klassisch => klassisch c
  end.

(** Position of a vehicle in the listing (Debeka, ETF, classic). *)
Definition listed (v : Vehicle) : nat :=
  match v with Debeka => 0 | Etf => 1 | Klassisch => 2 end.

(** [const winner = d > e && d > k ? 'debeka' : e > k ? 'etf' : 'klassisch'] *)
Definition winner (comparison : ComparisonResult) : Vehicle :=
  if greaterThan (monthlyPension (debeka comparison))
                 (monthlyPension (etf comparison))
     && greaterThan (monthlyPension (debeka comparison))
                    (monthlyPension (klassisch comparison))
  then Debeka
  else if greaterThan (monthlyPension (etf comparison))
                      (monthlyPension (klassisch comparison))
  then Etf
  else Klassisch.

(** The figure of the tax-advantage alert:
    [{comparison.taxAdvantage > 0 && (<Card> ... formatCurrency(comparison.taxAdvantage) ...)}];
    [None] when the alert is not rendered. *)
Definition taxAdvantageAlert (comparison : ComparisonResult) : option Q :=
  if greaterThan (taxAdvantage comparison) 0
  then Some (taxAdvantage comparison)
  else None.

(** The figure of the closing call-to-action paragraph, which formats
    [comparison.taxAdvantage] without a guard. *)
Definition callToActionSavings (comparison : ComparisonResult) : Q :=
  taxAdvantage comparison.

Definition defaultInputs : ComparisonInputs :=
  {| currentAge := 35; monthlyContribution := 300;
     currentAssets := 0; retirementAge := 67 |}.

(** ** Closed forms used in the statements *)

(** [years] and [months] as the comparison computes them. *)
Definition horizon (inputs : ComparisonInputs) : Z :=
  (retirementAge inputs - currentAge inputs)%Z.

(** [(Math.pow(1 + r, months) - 1) / r], with the division of [Q]. *)
Definition annuityFactor (r : Q) (months : Z) : Q :=
  ((1 + r) ^ months - 1) / r.

(** The expression shared by [debekaFutureValue], [etfFutureValue] and
    [klassischFutureValue]: the lump sum grows with the yearly rate over
    [years], the contributions with a twelfth of it over [months]. *)
Definition vehicleFutureValue (netGrowth : Q) (inputs : ComparisonInputs) : Q :=
  currentAssets inputs * (1 + netGrowth) ^ horizon inputs
  + monthlyContribution inputs
    * annuityFactor (netGrowth / 12) (horizon inputs * 12).

(** Monthly payout of a capital at the 4 % withdrawal rate, and the tax of
    a payout under the Ertragsanteil rule (17 % taxable, 25 % personal
    rate). *)
Definition withdrawal (capital : Q) : Q := (capital * 0.04) / 12.
Definition ertragsanteilTax (gross : Q) : Q :=
  gross * debekaErtragsanteil * 0.25.

(** The geometric sum behind the annuity factor:
    [geometric x n = 1 + x + ... + x^(n-1)]. *)
Fixpoint geometric (x : Q) (n : nat) : Q :=
  match n with
  | O => 0
  | S k => 1 + x * geometric x k
  end.

(** The net monthly pension of a vehicle, the quantity the winner is
    chosen by. *)
Definition pension (v : Vehicle) (c : ComparisonResult) : Q :=
  monthlyPension (card v c).

(** ** The wording of the specification, for comparison with the code *)

Module Spec.

(** The compounding primitive as the specification words it:
    [monthlyRate = annualRate / 12], [months = years * 12], the no-growth
    sum at a zero rate, and otherwise lump sum and contributions both
    compounded with the monthly rate over [months]. *)
Definition futureValue
    (initialCapital monthlyContribution annualRate : Q) (years : Z) : Q :=
  let monthlyRate := annualRate / 12 in
  let months := (years * 12)%Z in
  if Qeq_bool monthlyRate 0 then
    initialCapital + monthlyContribution * inject_Z months
  else
    initialCapital * (1 + monthlyRate) ^ months
    + monthlyContribution * (((1 + monthlyRate) ^ months - 1) / monthlyRate).

(** A tax accumulated as a running sum over the years of the horizon:
    the amount of each year times the tax rate. *)
Fixpoint runningTax (amount : nat -> Q) (taxRate : Q) (years : nat) : Q :=
  match years with
  | O => 0
  | S y => runningTax amount taxRate y + amount y * taxRate
  end.

End Spec.

(** The gross gain of year [y] of an ETF accumulation: the capital the
    comparison computes for a horizon of [y] years, times the gross yearly
    return. *)
Definition etfYearGain (inputs : ComparisonInputs) (y : nat) : Q :=
  vehicleFutureValue etfNetGrowth
    {| currentAge := currentAge inputs;
       monthlyContribution := monthlyContribution inputs;
       currentAssets := currentAssets inputs;
       retirementAge := currentAge inputs + Z.of_nat y |}
  * etfAnnualGains.

Definition netGrowth (v : Vehicle) : Q :=
  match v with
  | Debeka => debekaNetGrowth
  | Etf => etfNetGrowth
  | Klassisch => klassischNetGrowth
  end.

(** ** Inputs used in the examples *)

(** One year of accumulation on a lump sum of 1000, without contributions. *)
Definition lumpSumInputs : ComparisonInputs :=
  {| currentAge := 35; monthlyContribution := 0;
     currentAssets := 1000; retirementAge := 36 |}.

(** One year of accumulation with nothing paid in. *)
Definition emptyInputs : ComparisonInputs :=
  {| currentAge := 35; monthlyContribution := 0;
     currentAssets := 0; retirementAge := 36 |}.

(** A retirement age below the current age. *)
Definition reversedAges : ComparisonInputs :=
  {| currentAge := 67; monthlyContribution := 300;
     currentAssets := 0; retirementAge := 35 |}.

(** A horizon of 102 years. *)
Definition longHorizon : ComparisonInputs :=
  {| currentAge := 18; monthlyContribution := 300;
     currentAssets := 0; retirementAge := 120 |}.


(** ** The funds panel of the calculator page

    The figures of the "Fonds" tab are computed inline in the markup from
    [fundsSettings]: the projected end capital, the sum paid in, and three
    scenario cards with a fixed yearly return. *)

(** [Math.max(a, b)]. *)
Definition Math_max (a b : Q) : Q := if Qle_bool a b then b else a.

Module Funds.

Record FundsSettings : Type := mkFundsSettings
  { monthlyContribution : Q;
    termYears : Z;
    expectedReturn : Q;
    showCustomReturn : bool }.

(** "Prognostiziertes Endkapital". *)
Definition projectedEndCapital (fundsSettings : FundsSettings)
  : Completion Q :=
  let monthlyRate := expectedReturn fundsSettings / 12 in
  let totalMonths := (termYears fundsSettings * 12)%Z in
  if Qeq_bool monthlyRate 0 then
    Return (monthlyContribution fundsSettings * inject_Z totalMonths)
  else
    p <- Math_pow (1 + monthlyRate) totalMonths ;;
    d <- jsdiv (p - 1) monthlyRate ;;
    Return (monthlyContribution fundsSettings * d).

(** "Eingezahlt". *)
Definition paidIn (fundsSettings : FundsSettings) : Q :=
  monthlyContribution fundsSettings * 12
  * inject_Z (termYears fundsSettings).

(** The end capital of a scenario card; the cards differ in the literal
    yearly return only, and have no branch for a zero rate. *)
Definition scenarioEndCapital (annual : Q) (fundsSettings : FundsSettings)
  : Completion Q :=
  let monthlyRate := annual / 12 in
  let totalMonths := (termYears fundsSettings * 12)%Z in
  p <- Math_pow (1 + monthlyRate) totalMonths ;;
  d <- jsdiv (p - 1) monthlyRate ;;
  Return (monthlyContribution fundsSettings * d).

(** "Pessimistisch (3% p.a.)", "Realistisch (7% p.a.)" and
    "Optimistisch (10% p.a.)". *)
Definition pessimistic : Q := 0.03.
Definition realistic : Q := 0.07.
Definition optimistic : Q := 0.10.

End Funds.

(** ** The pension estimate of the dashboard

    The dashboard estimates a pension from a monthly contribution with the
    local function [estimatedPensionFromContributions]; an optional entry
    of a store is an [option], read with [entry || 0]. *)

Module Dashboard.

(** [entry || 0]: a missing entry and the number 0 both give 0. *)
Definition orZero (entry : option Q) : Q :=
  match entry with
  | Some v => if Qeq_bool v 0 then 0 else v
  | None => 0
  end.

(** [estimatedPensionFromContributions(monthlyContribution, years)]. *)
Definition estimatedPensionFromContributions
    (monthlyContribution : Q) (years : Z) : Completion Q :=
  if Qeq_bool monthlyContribution 0 || (years <=? 0)%Z then Return 0
  else
    let annualReturn := 0.04 in
    let monthlyReturn := annualReturn / 12 in
    let months := (years * 12)%Z in
    p <- Math_pow (1 + monthlyReturn) months ;;
    d <- jsdiv (p - 1) monthlyReturn ;;
    let futureValue := monthlyContribution * d in
    let monthlyPension := (futureValue * 0.04) / 12 in
    Return monthlyPension.

End Dashboard.

(** ** The location hook of the router

    [useGitHubPagesLocation] strips the base path of the deployment from
    the browser path and adds it again on navigation.  A JavaScript string
    is the list of its UTF-16 code units. *)

Module Routing.

Definition jsstring : Type := list N.

Definition slash : N := 47.
Definition questionMark : N := 63.

(** [a === b] on strings. *)
Fixpoint eqb (a b : jsstring) : bool :=
  match a, b with
  | [], [] => true
  | x :: a', y :: b' => N.eqb x y && eqb a' b'
  | _, _ => false
  end.

(** [s.startsWith(prefix)]. *)
Fixpoint startsWith (s prefix : jsstring) : bool :=
  match prefix, s with
  | [], _ => true
  | p :: prefix', c :: s' => N.eqb c p && startsWith s' prefix'
  | _ :: _, [] => false
  end.

(** [s.replace] of the pattern "slash at the end of the input" by the empty
    string: one slash at the very end is removed. *)
Fixpoint removeTrailingSlash (s : jsstring) : jsstring :=
  match s with
  | [] => []
  | c :: rest =>
      match rest with
      | [] => if N.eqb c slash then [] else [c]
      | _ :: _ => c :: removeTrailingSlash rest
      end
  end.

(** The code units that the dot of a regular expression does not match. *)
Definition lineTerminator (c : N) : bool :=
  N.eqb c 10 || N.eqb c 13 || N.eqb c 8232 || N.eqb c 8233.

(** The longest prefix matched by "any characters" of a pattern. *)
Fixpoint untilLineTerminator (s : jsstring) : jsstring :=
  match s with
  | [] => []
  | c :: rest => if lineTerminator c then [] else c :: untilLineTerminator rest
  end.

(** Group 1 of the match of [search] against the pattern of the hook, [None]
    without a match.  The pattern is: start of the input, an optional
    slash, then the group: a slash followed by any characters. *)
Definition searchRouteMatch (search : jsstring) : option jsstring :=
  match search with
  | a :: rest =>
      if N.eqb a slash then
        match rest with
        | b :: rest' =>
            if N.eqb b slash then Some (b :: untilLineTerminator rest')
            else Some (a :: untilLineTerminator rest)
        | [] => Some [a]
        end
      else None
  | [] => None
  end.

(** The route handed to the router, computed in the initialiser of the
    state and again in the [popstate] handler, from the runtime base,
    [window.location.search] and [window.location.pathname]. *)
Definition location (runtimeBase search pathname : jsstring) : jsstring :=
  let path :=
    match searchRouteMatch search with
    | Some route => route
    | None => pathname
    end in
  if eqb runtimeBase [slash] || eqb runtimeBase [] then path
  else
    let normalizedBase := removeTrailingSlash runtimeBase in
    if eqb path normalizedBase || eqb path (normalizedBase ++ [slash])%list
    then [slash]
    else if startsWith path (normalizedBase ++ [slash])%list
    then skipn (List.length normalizedBase) path
    else path.

Inductive HistoryCall : Type :=
| replaceState (url : jsstring)
| pushState (url : jsstring).

Definition url (call : HistoryCall) : jsstring :=
  match call with replaceState u => u | pushState u => u end.

(** [navigate(to, options)]: the call on [window.history] and the new
    route. *)
Definition navigate (runtimeBase to : jsstring) (replace : bool)
  : HistoryCall * jsstring :=
  let prefix :=
    if negb (eqb runtimeBase [slash]) && negb (eqb runtimeBase [])
    then removeTrailingSlash runtimeBase else [] in
  let fullPath :=
    match (prefix ++ to)%list with
    | [] => to
    | joined => joined
    end in
  ((if replace then replaceState fullPath else pushState fullPath), to).

(** What a browser reports as [location.search]: nothing, or a string
    that begins with a question mark. *)
Definition isSearch (search : jsstring) : bool :=
  match search with
  | [] => true
  | c :: _ => N.eqb c questionMark
  end.

End Routing.

(** ** The editable result figures of the calculator page

    Four figures of the result panel can be overwritten by the user.  The
    state holds, for each, the flag [isEditing], the shown [value] and the
    [originalValue] of the last simulation. *)

Module Editing.

Inductive Field : Type :=
| monthlyPension | finalPayout | totalCosts | effectiveReturn.

Definition Field_eqb (a b : Field) : bool :=
  match a, b with
  | monthlyPension, monthlyPension | finalPayout, finalPayout
  | totalCosts, totalCosts | effectiveReturn, effectiveReturn => true
  | _, _ => false
  end.

Record Editable : Type := mkEditable
  { isEditing : bool; value : Q; originalValue : Q }.

(** [{ ...object, [field]: entry }]. *)
Definition assign {A : Type} (object : Field -> A) (field : Field) (entry : A)
  : Field -> A :=
  fun key => if Field_eqb key field then entry else object key.

Record State : Type := mkState
  { editableValues : Field -> Editable;
    tempEditValues : Field -> string;
    validationErrors : Field -> option string;
    focusedField : option Field;
    isLoading : bool }.

(** The initial [useState] values. *)
Definition initialState : State :=
  {| editableValues := fun _ => mkEditable false 0 0;
     tempEditValues := fun _ => EmptyString;
     validationErrors := fun _ => None;
     focusedField := None;
     isLoading := false |}.

(** [a || b] on numbers: 0 is falsy. *)
Definition orElse (a b : Q) : Q := if Qeq_bool a 0 then b else a.

(** The [kpis] of a simulation result, as far as the effect reads them. *)
Record SimulationKpis : Type := mkSimulationKpis
  { kpiMonthlyPension : option Q;
    kpiProjectedValue : option Q;
    kpiTotalCosts : option Q;
    kpiNetReturn : option Q }.

Definition kpiOf (kpis : SimulationKpis) (field : Field) : option Q :=
  match field with
  | monthlyPension => kpiMonthlyPension kpis
  | finalPayout => kpiProjectedValue kpis
  | totalCosts => kpiTotalCosts kpis
  | effectiveReturn => kpiNetReturn kpis
  end.

(** The effect that runs when [simulationResults] changes; [None] stands
    for no results yet. *)
Definition resultsChanged (simulationResults : option SimulationKpis)
    (s : State) : State :=
  match simulationResults with
  | None => s
  | Some kpis =>
      {| editableValues := fun field =>
           let prev := editableValues s field in
           let fresh := Dashboard.orZero (kpiOf kpis field) in
           {| isEditing := isEditing prev;
              originalValue := fresh;
              value := orElse (value prev) fresh |};
         tempEditValues := tempEditValues s;
         validationErrors := validationErrors s;
         focusedField := focusedField s;
         isLoading := isLoading s |}
  end.

Section Handlers.

(** [Number.prototype.toString] and [parseFloat] are not modelled: the
    handlers are stated for any pair of them; [parseFloat] gives [None] for
    [NaN]. *)
Variable toString : Q -> string.
Variable parseFloat : string -> option Q.

Definition handleEditStart (field : Field) (s : State) : State :=
  let currentValue :=
    orElse (value (editableValues s field))
           (originalValue (editableValues s field)) in
  {| editableValues :=
       assign (editableValues s) field
         {| isEditing := true;
            value := value (editableValues s field);
            originalValue := originalValue (editableValues s field) |};
     tempEditValues := assign (tempEditValues s) field (toString currentValue);
     validationErrors := assign (validationErrors s) field (Some EmptyString);
     focusedField := Some field;
     isLoading := isLoading s |}.

Definition handleEditCancel (field : Field) (s : State) : State :=
  {| editableValues :=
       assign (editableValues s) field
         {| isEditing := false;
            value := value (editableValues s field);
            originalValue := originalValue (editableValues s field) |};
     tempEditValues := assign (tempEditValues s) field EmptyString;
     validationErrors := validationErrors s;
     focusedField := focusedField s;
     isLoading := isLoading s |}.

Definition handleEditValueChange (field : Field) (text : string) (s : State)
  : State :=
  {| editableValues := editableValues s;
     tempEditValues := assign (tempEditValues s) field text;
     validationErrors := validationErrors s;
     focusedField := focusedField s;
     isLoading := isLoading s |}.

Definition reject (field : Field) (message : string) (s : State) : State :=
  {| editableValues := editableValues s;
     tempEditValues := tempEditValues s;
     validationErrors := assign (validationErrors s) field (Some message);
     focusedField := focusedField s;
     isLoading := isLoading s |}.

(** [handleEditSave(field)], the state once its promise has settled (the
    toast is left out). *)
Definition handleEditSave (field : Field) (s : State) : State :=
  match parseFloat (tempEditValues s field) with
  | None => reject field "Bitte geben Sie eine gÃ¼ltige Zahl ein" s
  | Some newValue =>
      if lessThan newValue 0 then reject field "Wert muss positiv sein" s
      else if Field_eqb field effectiveReturn
              && (lessThan newValue 0 || greaterThan newValue 1)
      then reject field "Rendite muss zwischen 0% und 100% liegen" s
      else
        {| editableValues :=
             assign (editableValues s) field
               {| isEditing := false;
                  value := newValue;
                  originalValue := originalValue (editableValues s field) |};
           tempEditValues := tempEditValues s;
           validationErrors :=
             assign (validationErrors s) field (Some EmptyString);
           focusedField := None;
           isLoading := false |}
  end.

End Handlers.

End Editing.

(** ** The form of the calculator page: schema, validation, prefill *)

Module Form.

Inductive PayoutMode : Type := annuity | flex.

Record FormData : Type := mkFormData
  { currentAge : Q;
    startAge : Q;
    termYears : Q;
    monthlyContribution : Q;
    startInvestment : Q;
    targetMaturityValue : option Q;
    payoutStartAge : Q;
    payoutEndAge : Q;
    payoutMode : PayoutMode;
    annuityRate : Q;
    safeWithdrawalRate : option Q }.

(** [z.number().min(lo).max(hi)]: both bounds are inclusive. *)
Definition between (lo hi x : Q) : bool := Qle_bool lo x && Qle_bool x hi.

(** [z.number().min(lo)]. *)
Definition atLeast (lo x : Q) : bool := Qle_bool lo x.

(** An optional entry passes when it is absent. *)
Definition optionally (check : Q -> bool) (x : option Q) : bool :=
  match x with Some v => check v | None => true end.

(** [formSchema], the zod object the form is resolved with. *)
Definition formSchema (data : FormData) : bool :=
  between 18 80 (currentAge data)
  && between 16 80 (startAge data)
  && between 5 45 (termYears data)
  && atLeast 0 (monthlyContribution data)
  && atLeast 0 (startInvestment data)
  && optionally (atLeast 0) (targetMaturityValue data)
  && between 62 85 (payoutStartAge data)
  && between 62 85 (payoutEndAge data)
  && between 0 1 (annuityRate data)
  && optionally (between 0 1) (safeWithdrawalRate data).

(** [validateFormData(data)]: the entries of the [errors] object, in the
    order they are written. *)
Definition validateFormData (data : FormData) : list (string * string) :=
  (if lessThan (currentAge data) 18 || greaterThan (currentAge data) 80
   then [("currentAge"%string,
          "Alter muss zwischen 18 und 80 Jahren liegen"%string)]
   else [])
  ++ (if lessThan (monthlyContribution data) 0
      then [("monthlyContribution"%string,
             "Monatlicher Beitrag muss positiv sein"%string)]
      else [])
  ++ (if Qle_bool (payoutEndAge data) (payoutStartAge data)
      then [("payoutStartAge"%string,
             "Rentenbeginn muss vor Rentenende liegen"%string)]
      else []).

(** [x && y] and [x || fallback] on optional numbers: a missing entry and
    0 are falsy. *)
Definition truthy (x : option Q) : bool :=
  match x with Some v => negb (Qeq_bool v 0) | None => false end.

Definition orDefault (x : option Q) (fallback : Q) : Q :=
  match x with
  | Some v => if Qeq_bool v 0 then fallback else v
  | None => fallback
  end.

(** The values the form is reset to from the onboarding data
    ([personal.age], [privatePension.contribution], [isCompleted]);
    [None] when the effect leaves the form alone. *)
Definition prefill (age contribution : option Q) (isCompleted : bool)
  : option FormData :=
  let hasOnboardingData := isCompleted || (truthy age && truthy contribution) in
  if hasOnboardingData then
    let currentAge := orDefault age 30 in
    let monthlyContribution := orDefault contribution 500 in
    Some {| currentAge := currentAge;
            startAge := currentAge;
            termYears := Math_max 5 (67 - currentAge);
            monthlyContribution := monthlyContribution;
            startInvestment := 10000;
            targetMaturityValue := None;
            payoutStartAge := 67;
            payoutEndAge := 85;
            payoutMode := annuity;
            annuityRate := 0.025;
            safeWithdrawalRate := Some 0.035 |}
  else None.

End Form.

(** ** The values of a JavaScript number *)

Module Number.

(** What a number can be: not a number, an infinity, or a finite value;
    every finite double is a rational. *)
Inductive number : Type :=
| NaN
| NegInfinity
| Finite (q : Q)
| Infinity.

Definition isNaN (a : number) : bool :=
  match a with NaN => true | _ => false end.

(** [a > b]: false as soon as one side is [NaN]. *)
Definition gt (a b : number) : bool :=
  match a, b with
  | NaN, _ | _, NaN => false
  | NegInfinity, _ => false
  | Finite _, NegInfinity => true
  | Finite x, Finite y => greaterThan x y
  | Finite _, Infinity => false
  | Infinity, Infinity => false
  | Infinity, _ => true
  end.

(** [a >= b]: false as soon as one side is [NaN]. *)
Definition ge (a b : number) : bool :=
  match a, b with
  | NaN, _ | _, NaN => false
  | _, NegInfinity => true
  | NegInfinity, _ => false
  | Finite x, Finite y => Qle_bool y x
  | Finite _, Infinity => false
  | Infinity, _ => true
  end.

End Number.

(** The winner conditional on the three pensions as values:
    [d > e && d > k ? 'debeka' : e > k ? 'etf' : 'klassisch']. *)
Definition winnerOf (debekaPension etfPension klassischPension : Number.number)
  : Vehicle :=
  if Number.gt debekaPension etfPension
     && Number.gt debekaPension klassischPension
  then Debeka
  else if Number.gt etfPension klassischPension
  then Etf
  else Klassisch.

(** The pension of a vehicle among the three. *)
Definition pensionOf (v : Vehicle)
    (debekaPension etfPension klassischPension : Number.number)
  : Number.number :=
  match v with
  | Debeka => debekaPension
  | Etf => etfPension
  | Klassisch => klassischPension
  end.

(** ** The same code on doubles

    Numbers are binary64 floats, with the arithmetic and the comparisons of
    IEEE 754; ages and years stay integers.  [Math.pow], whose last digits
    ECMAScript leaves to the implementation, is an argument of the
    functions; [power] is a reference for it, used where its last digits do
    not matter: at the base 1 and on overflow. *)

Module Double.

Local Open Scope float_scope.

(** An integer as a double (exact below 2^53). *)
Definition ofZ (z : Z) : float :=
  match z with
  | Z0 => 0
  | Zpos _ => PrimFloat.of_uint63 (Uint63.of_Z z)
  | Zneg p => - PrimFloat.of_uint63 (Uint63.of_Z (Zpos p))
  end.


(** A power with an integer exponent, by repeated multiplication. *)
Definition power (base : float) (exponent : Z) : float :=
  match exponent with
  | Z0 => 1
  | Zpos p => Pos.iter (fun x => x * base) 1 p
  | Zneg p => 1 / Pos.iter (fun x => x * base) 1 p
  end.

Record ComparisonInputs : Type := mkInputs
  { currentAge : Z;
    monthlyContribution : float;
    currentAssets : float;
    retirementAge : Z }.

Record VehicleResult : Type := mkVehicle
  { finalCapital : float;
    monthlyPension : float;
    grossMonthlyPension : float;
    totalTax : float;
    netReturn : float;
    taxRate : float }.

Record ComparisonResult : Type := mkComparison
  { debeka : VehicleResult;
    etf : VehicleResult;
    klassisch : VehicleResult;
    taxAdvantage : float;
    totalContributions : float;
    years : Z }.

(** The denominators of the three future-value expressions. *)
Definition debekaMonthlyReturn : float := (0.06 - 0.013) / 12.
Definition etfMonthlyReturn : float :=
  ((0.07 - 0.003) - (0.07 - 0.003) * 0.26375) / 12.
Definition klassischMonthlyReturn : float := (0.02 - 0.01) / 12.

Section Builtin.

Variable Math_pow : float -> Z -> float.

Definition calculateFutureValue_try
    (monthlyPayment annualRate : float) (years : Z) : Completion float :=
  if (monthlyPayment <? 0) || (annualRate <? 0) || (years <? 0)%Z
  then
    Throw "Values must be non-negative"
  else if (years >? 100)%Z then
    Throw "Investment period too long"
  else
    let monthlyRate := annualRate / 12 in
    let totalMonths := (years * 12)%Z in
    if monthlyRate =? 0 then
      Return (monthlyPayment * ofZ totalMonths)
    else
      Return (monthlyPayment
              * ((Math_pow (1 + monthlyRate) totalMonths - 1) / monthlyRate)).

Definition calculateFutureValue
    (monthlyPayment annualRate : float) (years : Z)
  : Completion float * list ConsoleError :=
  match calculateFutureValue_try monthlyPayment annualRate years with
  | Throw error => (Return 0, [mkConsoleError "Calculation error:" error])
  | completion => (completion, [])
  end.

(** The body of [const comparison = useMemo(() => { ... }, [inputs])]. *)
Definition comparison (inputs : ComparisonInputs) : ComparisonResult :=
  let years := (retirementAge inputs - currentAge inputs)%Z in
  let months := (years * 12)%Z in
  let totalContributions :=
    monthlyContribution inputs * ofZ months + currentAssets inputs in
  let debekaGrowthRate := 0.06 in
  let debekaCosts := 0.013 in
  let debekaNetGrowth := debekaGrowthRate - debekaCosts in
  let debekaMonthlyReturn := debekaNetGrowth / 12 in
  let debekaFutureValue :=
    currentAssets inputs * Math_pow (1 + debekaNetGrowth) years
    + monthlyContribution inputs
      * ((Math_pow (1 + debekaMonthlyReturn) months - 1)
         / debekaMonthlyReturn) in
  let debekaErtragsanteil := 0.17 in
  let debekaGrossMonthlyPension := (debekaFutureValue * 0.04) / 12 in
  let debekaTaxableAmount := debekaGrossMonthlyPension * debekaErtragsanteil in
  let debekaTax := debekaTaxableAmount * 0.25 in
  let debekaNetMonthlyPension := debekaGrossMonthlyPension - debekaTax in
  let etfGrowthRate := 0.07 in
  let etfCosts := 0.003 in
  let etfGrossReturn := etfGrowthRate - etfCosts in
  let abgeltungssteuer := 0.26375 in
  let etfAnnualGains := etfGrossReturn in
  let etfTaxOnGains := etfAnnualGains * abgeltungssteuer in
  let etfNetGrowth := etfGrossReturn - etfTaxOnGains in
  let etfMonthlyReturn := etfNetGrowth / 12 in
  let etfFutureValue :=
    currentAssets inputs * Math_pow (1 + etfNetGrowth) years
    + monthlyContribution inputs
      * ((Math_pow (1 + etfMonthlyReturn) months - 1) / etfMonthlyReturn) in
  let etfNetMonthlyPension := (etfFutureValue * 0.04) / 12 in
  let klassischGrowthRate := 0.02 in
  let klassischCosts := 0.01 in
  let klassischNetGrowth := klassischGrowthRate - klassischCosts in
  let klassischMonthlyReturn := klassischNetGrowth / 12 in
  let klassischFutureValue :=
    currentAssets inputs * Math_pow (1 + klassischNetGrowth) years
    + monthlyContribution inputs
      * ((Math_pow (1 + klassischMonthlyReturn) months - 1)
         / klassischMonthlyReturn) in
  let klassischGrossMonthlyPension := (klassischFutureValue * 0.04) / 12 in
  let klassischTaxableAmount :=
    klassischGrossMonthlyPension * debekaErtragsanteil in
  let klassischTax := klassischTaxableAmount * 0.25 in
  let klassischNetMonthlyPension :=
    klassischGrossMonthlyPension - klassischTax in
  let retirementYears := 20 in
  let debeka30YearTax := debekaTax * 12 * retirementYears in
  let etfTaxDuringAccumulation :=
    monthlyContribution inputs * 12 * ofZ years * etfTaxOnGains
    / etfGrossReturn in
  let totalEtfTax := etfTaxDuringAccumulation in
  let taxAdvantage := totalEtfTax - debeka30YearTax in
  {| debeka :=
       {| finalCapital := debekaFutureValue;
          monthlyPension := debekaNetMonthlyPension;
          grossMonthlyPension := debekaGrossMonthlyPension;
          totalTax := debeka30YearTax;
          netReturn := debekaNetGrowth * 100;
          taxRate := debekaErtragsanteil * 100 |};
     etf :=
       {| finalCapital := etfFutureValue;
          monthlyPension := etfNetMonthlyPension;
          grossMonthlyPension := etfNetMonthlyPension;
          totalTax := totalEtfTax;
          netReturn := etfNetGrowth * 100;
          taxRate := abgeltungssteuer * 100 |};
     klassisch :=
       {| finalCapital := klassischFutureValue;
          monthlyPension := klassischNetMonthlyPension;
          grossMonthlyPension := klassischGrossMonthlyPension;
          totalTax := klassischTax * 12 * retirementYears;
          netReturn := klassischNetGrowth * 100;
          taxRate := debekaErtragsanteil * 100 |};
     taxAdvantage := taxAdvantage;
     totalContributions := totalContributions;
     years := years |}.

End Builtin.

(** [const winner = d > e && d > k ? 'debeka' : e > k ? 'etf' : 'klassisch'] *)
Definition winner (comparison : ComparisonResult) : Vehicle :=
  if (monthlyPension (etf comparison) <? monthlyPension (debeka comparison))
     && (monthlyPension (klassisch comparison)
         <? monthlyPension (debeka comparison))
  then Debeka
  else if monthlyPension (klassisch comparison)
          <? monthlyPension (etf comparison)
  then Etf
  else Klassisch.



End Double.

(** The pension estimated per unit of monthly contribution: 0 for a horizon
    that is not positive, and otherwise the annuity factor at 4 % a year,
    paid out at the 4 % withdrawal rate. *)
Definition pensionFactor (years : Z) : Q :=
  if (years <=? 0)%Z then 0
  else (annuityFactor (0.04 / 12) (years * 12) * 0.04) / 12.

(** ** Evaluation lemmas *)

Lemma jsdiv_nonzero (a b : Q) : ~ b == 0 -> jsdiv a b = Return (a / b).
Proof.
  intros Hb. unfold jsdiv.
  destruct (Qeq_bool b 0) eqn:E; [|reflexivity].
  apply Qeq_bool_eq in E. contradiction.
Qed.

Lemma Math_pow_pos (b : Q) (e : Z) : 0 < b -> Math_pow b e = Return (b ^ e).
Proof.
  intros Hb. unfold Math_pow.
  destruct (Qeq_bool b 0) eqn:E; [|reflexivity].
  apply Qeq_bool_eq in E. rewrite E in Hb. discriminate Hb.
Qed.

Lemma greaterThan_spec (a b : Q) : greaterThan a b = true <-> b < a.
Proof.
  unfold greaterThan.
  rewrite negb_true_iff, <- not_true_iff_false, Qle_bool_iff.
  split; [apply Qnot_le_lt | apply Qlt_not_le].
Qed.

Lemma greaterThan_false (a b : Q) : greaterThan a b = false <-> a <= b.
Proof.
  unfold greaterThan. rewrite negb_false_iff. apply Qle_bool_iff.
Qed.

Lemma lessThan_false (a b : Q) : lessThan a b = false <-> b <= a.
Proof. apply (greaterThan_false b a). Qed.

(** The comparison returns for every input, and its fields are the closed
    forms above. *)
Lemma comparison_eval (inputs : ComparisonInputs) :
  exists r, comparison inputs = Return r
    /\ finalCapital (debeka r) = vehicleFutureValue debekaNetGrowth inputs
    /\ finalCapital (etf r) = vehicleFutureValue etfNetGrowth inputs
    /\ finalCapital (klassisch r) = vehicleFutureValue klassischNetGrowth inputs
    /\ grossMonthlyPension (debeka r) = withdrawal (finalCapital (debeka r))
    /\ monthlyPension (debeka r)
       = withdrawal (finalCapital (debeka r))
         - ertragsanteilTax (withdrawal (finalCapital (debeka r)))
    /\ monthlyPension (etf r) = withdrawal (finalCapital (etf r))
    /\ grossMonthlyPension (klassisch r)
       = withdrawal (finalCapital (klassisch r))
    /\ monthlyPension (klassisch r)
       = withdrawal (finalCapital (klassisch r))
         - ertragsanteilTax (withdrawal (finalCapital (klassisch r)))
    /\ totalTax (debeka r)
       = ertragsanteilTax (grossMonthlyPension (debeka r))
         * 12 * retirementYears
    /\ totalTax (klassisch r)
       = ertragsanteilTax (grossMonthlyPension (klassisch r))
         * 12 * retirementYears
    /\ totalTax (etf r)
       = monthlyContribution inputs * 12 * inject_Z (horizon inputs)
         * etfTaxOnGains / etfGrossReturn
    /\ taxAdvantage r = totalTax (etf r) - totalTax (debeka r)
    /\ totalContributions r
       = monthlyContribution inputs * inject_Z (horizon inputs * 12)
         + currentAssets inputs
    /\ years r = horizon inputs.
Proof.
  eexists. split.
  - unfold comparison.
    rewrite !Math_pow_pos by reflexivity. cbn [bind].
    rewrite !jsdiv_nonzero by discriminate. cbn [bind].
    reflexivity.
  - cbn [debeka etf klassisch finalCapital monthlyPension grossMonthlyPension
         totalTax taxAdvantage totalContributions years].
    repeat split.
Qed.

(** ** The geometric sum *)

#[export] Instance geometric_compat :
  Proper (Qeq ==> eq ==> Qeq) geometric.
Proof.
  intros x y Hxy n n' <-. induction n as [|n IH]; cbn [geometric].
  - reflexivity.
  - rewrite IH, Hxy. reflexivity.
Qed.

Lemma geometric_nonneg (x : Q) (n : nat) : 0 <= x -> 0 <= geometric x n.
Proof.
  intros Hx. induction n as [|n IH]; simpl.
  - apply Qle_refl.
  - assert (0 <= x * geometric x n) by (apply Qmult_le_0_compat; assumption).
    lra.
Qed.

Lemma Qpower_succ (x : Q) (n : nat) :
  x ^ Z.of_nat (S n) == x * x ^ Z.of_nat n.
Proof.
  rewrite Nat2Z.inj_succ. unfold Z.succ.
  rewrite Qpower_plus' by lia.
  rewrite Qpower_1_r. ring.
Qed.

Lemma geometric_closed (x : Q) (n : nat) :
  (x - 1) * geometric x n == x ^ Z.of_nat n - 1.
Proof.
  induction n as [|n IH].
  - simpl. ring.
  - rewrite Qpower_succ. cbn [geometric].
    setoid_replace ((x - 1) * (1 + x * geometric x n))
      with (x - 1 + x * ((x - 1) * geometric x n)) by ring.
    rewrite IH. ring.
Qed.

Lemma annuityFactor_geometric (r : Q) (n : nat) :
  ~ r == 0 -> annuityFactor r (Z.of_nat n) == geometric (1 + r) n.
Proof.
  intros Hr. unfold annuityFactor.
  rewrite <- geometric_closed.
  field. exact Hr.
Qed.

Lemma geometric_one (n : nat) : geometric 1 n == inject_Z (Z.of_nat n).
Proof.
  induction n as [|n IH].
  - reflexivity.
  - cbn [geometric]. rewrite IH, Nat2Z.inj_succ. unfold Z.succ.
    rewrite inject_Z_plus. ring.
Qed.

Lemma geometric_base_le (x y : Q) (n : nat) :
  0 <= x -> x <= y -> geometric x n <= geometric y n.
Proof.
  intros Hx Hxy. induction n as [|n IH]; cbn [geometric].
  - apply Qle_refl.
  - pose proof (geometric_nonneg x n Hx) as Hg.
    assert (x * geometric x n <= y * geometric y n).
    { apply Qle_trans with (y * geometric x n).
      - apply Qmult_le_compat_r; assumption.
      - rewrite !(Qmult_comm y). apply Qmult_le_compat_r; [assumption|lra]. }
    lra.
Qed.

(** ** The helper on accepted and on rejected arguments *)

Lemma twelfth (r : Q) : r / 12 == r * (1 # 12).
Proof. reflexivity. Qed.

Lemma twelfth_zero (r : Q) : r / 12 == 0 <-> r == 0.
Proof. rewrite twelfth. split; intros H; lra. Qed.

Lemma twelfth_nonneg (r : Q) : 0 <= r -> 0 <= r / 12.
Proof. rewrite twelfth. intros H; lra. Qed.

(** On accepted arguments both guards are passed. *)
Lemma calculateFutureValue_try_accepted (m r : Q) (n : Z) :
  0 <= m -> 0 <= r -> (0 <= n <= 100)%Z ->
  calculateFutureValue_try m r n
  = if Qeq_bool (r / 12) 0 then Return (m * inject_Z (n * 12))
    else Return (m * annuityFactor (r / 12) (n * 12)).
Proof.
  intros Hm Hr [Hn0 Hn100]. unfold calculateFutureValue_try.
  apply lessThan_false in Hm, Hr. rewrite Hm, Hr.
  replace (n <? 0)%Z with false by (symmetry; apply Z.ltb_ge; exact Hn0).
  replace (n >? 100)%Z with false
    by (symmetry; rewrite Z.gtb_ltb; apply Z.ltb_ge; exact Hn100).
  cbn [orb].
  destruct (Qeq_bool (r / 12) 0) eqn:E; [reflexivity|].
  apply Qeq_bool_neq in E. apply lessThan_false in Hr.
  pose proof (twelfth_nonneg r Hr) as Hr12.
  rewrite Math_pow_pos by lra. cbn [bind].
  rewrite jsdiv_nonzero by exact E. reflexivity.
Qed.

(** The value on accepted arguments, as a geometric sum; it covers the
    zero rate, where the sum has the ratio 1. *)
Lemma calculateFutureValue_accepted (m r : Q) (n : Z) :
  0 <= m -> 0 <= r -> (0 <= n <= 100)%Z ->
  exists v, calculateFutureValue m r n = (Return v, [])
    /\ v == m * geometric (1 + r / 12) (Z.to_nat (n * 12)).
Proof.
  intros Hm Hr Hn. unfold calculateFutureValue.
  rewrite calculateFutureValue_try_accepted by assumption.
  destruct (Qeq_bool (r / 12) 0) eqn:E; eexists; (split; [reflexivity|]).
  - apply Qeq_bool_eq in E.
    setoid_replace (1 + r / 12) with 1 by (rewrite E; ring).
    rewrite geometric_one, Z2Nat.id by lia. reflexivity.
  - apply Qeq_bool_neq in E.
    rewrite <- annuityFactor_geometric by exact E.
    rewrite Z2Nat.id by lia. reflexivity.
Qed.

(** ** Facts on the closed forms *)


Lemma etf_tax_closed (m y : Q) :
  m * 12 * y * etfTaxOnGains / etfGrossReturn == m * 12 * y * abgeltungssteuer.
Proof.
  unfold etfTaxOnGains, etfAnnualGains. field. discriminate.
Qed.

Lemma runningTax_constant (a t : Q) (n : nat) :
  Spec.runningTax (fun _ => a) t n == a * inject_Z (Z.of_nat n) * t.
Proof.
  induction n as [|n IH].
  - simpl. ring.
  - cbn [Spec.runningTax]. rewrite IH, Nat2Z.inj_succ. unfold Z.succ.
    rewrite inject_Z_plus. ring.
Qed.

(** ** C1: the future-value formula *)




(** ** C2: arguments outside the accepted range *)

(** C2, as stated, fails: a negative payment, and a period of 101 years,
    each make the function return the number 0; no error reaches the
    caller. *)
Lemma rejected_arguments_return_zero :
  fst (calculateFutureValue (-1) 0.05 10) = Return 0
  /\ fst (calculateFutureValue 100 0.05 101) = Return 0
  /\ ~ (exists e, fst (calculateFutureValue (-1) 0.05 10) = Throw e)
  /\ ~ (exists e, fst (calculateFutureValue 100 0.05 101) = Throw e).
Proof.
  repeat split; try reflexivity; intros [e He]; discriminate He.
Qed.

(** C2 (amended).  Whenever the payment, the rate or the years are
    negative, or the years exceed 100, the [try] block throws an [Error];
    the function catches it itself, writes it to the console under
    "Calculation error:" and returns 0 to its caller. *)
Theorem invalid_arguments_are_swallowed
    (monthlyPayment annualRate : Q) (n : Z)
    (Hinvalid : monthlyPayment < 0 \/ annualRate < 0
                \/ (n < 0)%Z \/ (100 < n)%Z) :
  exists e,
    calculateFutureValue_try monthlyPayment annualRate n = Throw e
    /\ (e = "Values must be non-negative"%string
        \/ e = "Investment period too long"%string)
    /\ calculateFutureValue monthlyPayment annualRate n
       = (Return 0, [mkConsoleError "Calculation error:" e]).
Proof.
  unfold calculateFutureValue, calculateFutureValue_try.
  destruct (lessThan monthlyPayment 0 || lessThan annualRate 0
            || (n <? 0)%Z) eqn:E.
  - eexists. repeat split. left. reflexivity.
  - apply orb_false_elim in E as [E En]. apply orb_false_elim in E as [Em Er].
    apply lessThan_false in Em, Er. apply Z.ltb_ge in En.
    destruct Hinvalid as [H|[H|[H|H]]]; try lra; try lia.
    replace (n >? 100)%Z with true
      by (symmetry; rewrite Z.gtb_ltb; apply Z.ltb_lt; exact H).
    eexists. repeat split. right. reflexivity.
Qed.

Lemma invalid_arguments_are_swallowed_witness :
  exists e,
    calculateFutureValue_try 100 0.05 101 = Throw e
    /\ (e = "Values must be non-negative"%string
        \/ e = "Investment period too long"%string)
    /\ calculateFutureValue 100 0.05 101
       = (Return 0, [mkConsoleError "Calculation error:" e]).
Proof.
  apply (invalid_arguments_are_swallowed 100 0.05 101).
  right. right. right. lia.
Defined.

(** ** C3: the zero rate *)

(** C3, as stated, fails twice: the function has no initial capital, so
    its value at rate 0 is [m * years * 12] whatever capital the claim
    adds (120 for ten years of 1, not 125 with a capital of 5), and over
    100 years it returns 0 (for 101 years of 1, not 1212). *)
Lemma zero_rate_excludes_capital_and_long_periods :
  fst (calculateFutureValue 1 0 10) = Return (1 * inject_Z (10 * 12))
  /\ ~ 1 * inject_Z (10 * 12) == Spec.futureValue 5 1 0 10
  /\ fst (calculateFutureValue 1 0 101) = Return 0
  /\ ~ 0 == Spec.futureValue 0 1 0 101.
Proof.
  repeat split; try reflexivity; intros H; discriminate H.
Qed.

(** C3 (amended).  For every payment [m >= 0] and every period of 0 to 100
    years, [calculateFutureValue] at the rate 0 returns exactly
    [m * (years * 12)]; it takes no initial capital, and nothing is
    divided. *)
Theorem zero_rate_value
    (monthlyPayment annualRate : Q) (n : Z)
    (Hpayment : 0 <= monthlyPayment) (Hrate : annualRate == 0)
    (Hyears : (0 <= n <= 100)%Z) :
  calculateFutureValue monthlyPayment annualRate n
  = (Return (monthlyPayment * inject_Z (n * 12)), []).
Proof.
  unfold calculateFutureValue.
  assert (Hnonneg : 0 <= annualRate) by (rewrite Hrate; apply Qle_refl).
  rewrite calculateFutureValue_try_accepted by assumption.
  apply (proj2 (twelfth_zero annualRate)), Qeq_eq_bool in Hrate.
  rewrite Hrate. reflexivity.
Qed.

Lemma zero_rate_value_witness :
  calculateFutureValue 250 0 30 = (Return (250 * inject_Z (30 * 12)), []).
Proof.
  apply (zero_rate_value 250 0 30).
  - discriminate.
  - reflexivity.
  - lia.
Defined.

(** ** C4: ages out of order and long horizons *)

(** C4, as stated, fails: with the retirement age 35 below the current age
    67, and with a horizon of 102 years, the comparison returns a result
    (for -32 and for 102 years); it throws nothing. *)
Lemma out_of_range_ages_are_projected :
  (retirementAge reversedAges <= currentAge reversedAges)%Z
  /\ (exists r, comparison reversedAges = Return r /\ years r = (-32)%Z)
  /\ ~ (exists e, comparison reversedAges = Throw e)
  /\ (exists r, comparison longHorizon = Return r /\ years r = 102%Z)
  /\ ~ (exists e, comparison longHorizon = Throw e).
Proof.
  destruct (comparison_eval reversedAges) as (r & Hr & H).
  destruct (comparison_eval longHorizon) as (r' & Hr' & H').
  repeat split.
  - discriminate.
  - exists r. split; [exact Hr|]. apply H.
  - intros [e He]. rewrite Hr in He. discriminate He.
  - exists r'. split; [exact Hr'|]. apply H'.
  - intros [e He]. rewrite Hr' in He. discriminate He.
Qed.

(** C4 (amended).  The comparison checks no range: for every input, also
    with [retirementAge <= currentAge] or a horizon above 100 years, it
    returns a result whose [years] is [retirementAge - currentAge] and it
    throws nothing; and [calculateFutureValue] hands no error to its
    caller, whatever its arguments. *)
Theorem comparison_checks_no_range
    (inputs : ComparisonInputs) (monthlyPayment annualRate : Q) (n : Z) :
  (exists r, comparison inputs = Return r
     /\ years r = (retirementAge inputs - currentAge inputs)%Z)
  /\ (forall e, comparison inputs <> Throw e)
  /\ (forall e, fst (calculateFutureValue monthlyPayment annualRate n)
                <> Throw e).
Proof.
  destruct (comparison_eval inputs) as (r & Hr & H).
  repeat split.
  - exists r. split; [exact Hr|]. apply H.
  - intros e He. rewrite Hr in He. discriminate He.
  - intros e. unfold calculateFutureValue.
    destruct (calculateFutureValue_try monthlyPayment annualRate n);
      discriminate.
Qed.

(** ** C5 and C6: the winner *)

(** C5, as stated, fails: with nothing paid in, the three pensions are all
    0, so all three vehicles hold the maximum, and the winner is the
    classic insurance, the last one listed, not Debeka. *)
Lemma tie_goes_to_the_last_listed :
  exists r, comparison emptyInputs = Return r
    /\ pension Debeka r == 0 /\ pension Etf r == 0 /\ pension Klassisch r == 0
    /\ winner r = Klassisch
    /\ winner r <> Debeka.
Proof.
  eexists. split; [vm_compute; reflexivity|].
  vm_compute. repeat split; discriminate.
Qed.

(** The winner among three finite pensions is the winner of the page. *)
Lemma winner_of_finite (c : ComparisonResult) :
  winner c
  = winnerOf (Number.Finite (monthlyPension (debeka c)))
      (Number.Finite (monthlyPension (etf c)))
      (Number.Finite (monthlyPension (klassisch c))).
Proof. reflexivity. Qed.

Ltac order_of_pensions :=
  repeat match goal with
         | H : greaterThan _ _ = true |- _ => apply greaterThan_spec in H
         | H : greaterThan _ _ = false |- _ => apply greaterThan_false in H
         end.

Ltac settle_pension :=
  first [ reflexivity
        | apply Qle_bool_iff; lra
        | apply greaterThan_spec; lra ].

(** Without a [NaN] among the pensions, the winner is greater than or equal
    to each pension, and each pension is strictly below it or belongs to a
    vehicle listed no later. *)
Lemma winnerOf_spec (d e k : Number.number) (v : Vehicle) :
  Number.isNaN d = false -> Number.isNaN e = false ->
  Number.isNaN k = false ->
  Number.ge (pensionOf (winnerOf d e k) d e k) (pensionOf v d e k) = true
  /\ (Number.gt (pensionOf (winnerOf d e k) d e k) (pensionOf v d e k) = true
      \/ (listed v <= listed (winnerOf d e k))%nat).
Proof.
  intros Hd He Hk. unfold winnerOf.
  destruct d as [| |d|]; try discriminate Hd;
  destruct e as [| |e|]; try discriminate He;
  destruct k as [| |k|]; try discriminate Hk;
  cbn [Number.gt andb];
  repeat match goal with
         | |- context [greaterThan ?a ?b] =>
             let E := fresh "E" in destruct (greaterThan a b) eqn:E
         end;
  cbn [andb]; order_of_pensions;
  try (exfalso; lra);
  destruct v; cbn [pensionOf Number.ge Number.gt listed];
  (split; [settle_pension | first [ right; lia | left; settle_pension ]]).
Qed.

(** C5 (amended).  Whenever none of the three pensions is [NaN], the
    winner holds the maximum [netMonthlyPension], and among the vehicles
    that hold it the winner is the one listed last (classic before ETF
    before Debeka): every pension is strictly below the winner's or belongs
    to a vehicle listed no later. *)
Theorem winner_is_last_listed_maximum
    (d e k : Number.number)
    (Hd : Number.isNaN d = false) (He : Number.isNaN e = false)
    (Hk : Number.isNaN k = false) :
  (forall v,
     Number.ge (pensionOf (winnerOf d e k) d e k) (pensionOf v d e k) = true)
  /\ (forall v,
        Number.gt (pensionOf (winnerOf d e k) d e k) (pensionOf v d e k)
        = true
        \/ (listed v <= listed (winnerOf d e k))%nat).
Proof.
  split; intros v; apply (winnerOf_spec d e k v Hd He Hk).
Qed.

Lemma winner_is_last_listed_maximum_witness :
  (forall v,
     Number.ge
       (pensionOf
          (winnerOf (Number.Finite 900) (Number.Finite 1200) Number.Infinity)
          (Number.Finite 900) (Number.Finite 1200) Number.Infinity)
       (pensionOf v (Number.Finite 900) (Number.Finite 1200) Number.Infinity)
     = true)
  /\ (forall v,
        Number.gt
          (pensionOf
             (winnerOf (Number.Finite 900) (Number.Finite 1200)
                Number.Infinity)
             (Number.Finite 900) (Number.Finite 1200) Number.Infinity)
          (pensionOf v (Number.Finite 900) (Number.Finite 1200)
             Number.Infinity)
        = true
        \/ (listed v
            <= listed (winnerOf (Number.Finite 900) (Number.Finite 1200)
                         Number.Infinity))%nat).
Proof.
  apply (winner_is_last_listed_maximum (Number.Finite 900)
           (Number.Finite 1200) Number.Infinity).
  - reflexivity.
  - reflexivity.
  - reflexivity.
Defined.




(** ** C7: total tax paid *)

(** C7, as stated, fails: a lump sum of 1000 held for one year without
    contributions earns a gross gain (67), yet the ETF total tax of the
    comparison is 0; no running sum of a positive yearly gain times the tax
    rate is 0. *)
Lemma etf_tax_ignores_gains :
  exists r, comparison lumpSumInputs = Return r
    /\ totalTax (etf r) == 0
    /\ etfYearGain lumpSumInputs 0 == 67
    /\ ~ totalTax (etf r)
         == Spec.runningTax (etfYearGain lumpSumInputs) abgeltungssteuer 1
    /\ ~ (exists gain : nat -> Q,
            0 < gain 0%nat
            /\ totalTax (etf r) == Spec.runningTax gain abgeltungssteuer 1).
Proof.
  eexists. split; [vm_compute; reflexivity|].
  cbn [etf totalTax]. repeat split.
  - intros H; discriminate H.
  - intros [gain [Hpos H]]. cbn [Spec.runningTax] in H.
    assert (Hzero : gain 0%nat * abgeltungssteuer == 0).
    { rewrite <- (Qplus_0_l (gain 0%nat * abgeltungssteuer)), <- H.
      reflexivity. }
    assert (Hgt : 0 < gain 0%nat * abgeltungssteuer).
    { apply Qmult_lt_0_compat; [exact Hpos|reflexivity]. }
    rewrite Hzero in Hgt. discriminate Hgt.
Qed.

(** C7 (amended).  The ETF [totalTaxPaid] is
    [monthlyContribution * 12 * years * 0.26375]: over the years of the
    accumulation, the running sum of the contributions of a year times the
    tax rate; it depends neither on the capital nor on its gains.  For the
    two vehicles under the Ertragsanteil rule, [totalTaxPaid] is the tax of
    one month ([gross - net], that is [gross * 0.17 * 0.25]) times 12 times
    the 20 retirement years. *)
Theorem total_tax_paid
    (age : Z) (contribution assets : Q) (accumulation : nat) :
  exists r,
    comparison {| currentAge := age; monthlyContribution := contribution;
                  currentAssets := assets;
                  retirementAge := age + Z.of_nat accumulation |}
    = Return r
    /\ totalTax (etf r)
       == contribution * 12 * inject_Z (Z.of_nat accumulation)
          * abgeltungssteuer
    /\ totalTax (etf r)
       == Spec.runningTax (fun _ => contribution * 12) abgeltungssteuer
            accumulation
    /\ totalTax (debeka r)
       == (grossMonthlyPension (debeka r) - monthlyPension (debeka r))
          * 12 * 20
    /\ totalTax (klassisch r)
       == (grossMonthlyPension (klassisch r) - monthlyPension (klassisch r))
          * 12 * 20
    /\ grossMonthlyPension (debeka r) - monthlyPension (debeka r)
       == grossMonthlyPension (debeka r) * 0.17 * 0.25
    /\ grossMonthlyPension (klassisch r) - monthlyPension (klassisch r)
       == grossMonthlyPension (klassisch r) * 0.17 * 0.25.
Proof.
  match goal with |- exists r, comparison ?i = _ /\ _ =>
    destruct (comparison_eval i)
      as (r & Hr & _ & _ & _ & Hdg & Hdn & _ & Hkg & Hkn & Hdt & Hkt & Het & _)
  end.
  exists r. split; [exact Hr|].
  assert (Hh : inject_Z (horizon
                {| currentAge := age; monthlyContribution := contribution;
                   currentAssets := assets;
                   retirementAge := age + Z.of_nat accumulation |})
               = inject_Z (Z.of_nat accumulation)).
  { unfold horizon. cbn [retirementAge currentAge]. f_equal. lia. }
  cbn [monthlyContribution] in Het. rewrite Hh in Het.
  assert (Hetf : totalTax (etf r)
                 == contribution * 12 * inject_Z (Z.of_nat accumulation)
                    * abgeltungssteuer).
  { rewrite Het. apply etf_tax_closed. }
  rewrite Hdt, Hkt, Hdn, Hkn, <- Hdg, <- Hkg.
  unfold ertragsanteilTax, retirementYears, debekaErtragsanteil.
  repeat split.
  - exact Hetf.
  - rewrite runningTax_constant. exact Hetf.
  - ring.
  - ring.
  - ring.
  - ring.
Qed.

(** ** C8: the tax advantage *)

(** C8, as stated, fails: for a lump sum of 1000 without contributions the
    ETF tax is 0 and the Debeka tax is positive, so the tax advantage, ETF
    minus Debeka, is negative; it is not the higher tax minus the lower
    one, and the closing paragraph of the page formats this negative
    figure. *)
Lemma tax_advantage_can_be_negative :
  exists r, comparison lumpSumInputs = Return r
    /\ totalTax (etf r) < totalTax (debeka r)
    /\ taxAdvantage r < 0
    /\ ~ taxAdvantage r == totalTax (debeka r) - totalTax (etf r)
    /\ callToActionSavings r < 0.
Proof.
  eexists. split; [vm_compute; reflexivity|].
  vm_compute. repeat split. discriminate.
Qed.

(** C8 (amended).  For every comparison input the tax advantage is the ETF
    [totalTaxPaid] minus the Debeka [totalTaxPaid], in this fixed order, so
    it may be negative; the tax-advantage alert is rendered only for a
    positive figure, which it shows unchanged, and is omitted otherwise. *)
Theorem tax_advantage_is_etf_minus_debeka (inputs : ComparisonInputs) :
  exists r, comparison inputs = Return r
    /\ taxAdvantage r == totalTax (etf r) - totalTax (debeka r)
    /\ match taxAdvantageAlert r with
       | Some shown => 0 < shown /\ shown = taxAdvantage r
       | None => taxAdvantage r <= 0
       end.
Proof.
  destruct (comparison_eval inputs)
    as (r & Hr & _ & _ & _ & _ & _ & _ & _ & _ & _ & _ & _ & Hadv & _).
  exists r. split; [exact Hr|]. split.
  - rewrite Hadv. reflexivity.
  - unfold taxAdvantageAlert.
    destruct (greaterThan (taxAdvantage r) 0) eqn:E.
    + apply greaterThan_spec in E. split; [exact E|reflexivity].
    + apply greaterThan_false in E. exact E.
Qed.

(** ** C9: monotonicity *)

(** C9 fails on the code: [calculateFutureValue(100, 0, 10)] is 12000,
    through the zero-rate branch, and [calculateFutureValue(100, 1e-17, 10)]
    is 0: the monthly rate is not zero, [1 + monthlyRate] rounds to 1, and
    the compounding factor less 1 is 0.  Raising the rate lowers the value.
    The statement holds for every [Math.pow] with [Math.pow(1, 120) = 1]. *)
Theorem tiny_rate_returns_zero
    (Math_pow : float -> Z -> float)
    (Hone : Math_pow 1%float 120%Z = 1%float) :
  Double.calculateFutureValue Math_pow 100 0 10 = (Return 12000%float, [])
  /\ Double.calculateFutureValue Math_pow 100 1e-17 10 = (Return 0%float, [])
  /\ (0 <? 12000)%float = true.
Proof.
  repeat split.
  unfold Double.calculateFutureValue, Double.calculateFutureValue_try.
  replace (1 + 1e-17 / 12)%float with 1%float by (vm_compute; reflexivity).
  replace (10 * 12)%Z with 120%Z by reflexivity.
  rewrite Hone. vm_compute. reflexivity.
Qed.

Lemma tiny_rate_returns_zero_witness :
  Double.calculateFutureValue Double.power 100 0 10
  = (Return 12000%float, [])
  /\ Double.calculateFutureValue Double.power 100 1e-17 10
     = (Return 0%float, [])
  /\ (0 <? 12000)%float = true.
Proof.
  apply (tiny_rate_returns_zero Double.power).
  vm_compute. reflexivity.
Defined.

(** ** C10: the denominators of the comparison *)



(** ** Further facts on the geometric sum *)

Lemma geometric_ge_length (x : Q) (n : nat) :
  1 <= x -> inject_Z (Z.of_nat n) <= geometric x n.
Proof.
  intros Hx. rewrite <- geometric_one.
  apply geometric_base_le; [discriminate|exact Hx].
Qed.

Lemma withdrawal_scale (capital : Q) : withdrawal capital == capital * (1 # 300).
Proof. unfold withdrawal. field. Qed.

(** ** The funds panel *)

Lemma Math_pow_nonneg_exponent (b : Q) (e : Z) :
  (0 <= e)%Z -> Math_pow b e = Return (b ^ e).
Proof.
  intros He. unfold Math_pow.
  replace (e <? 0)%Z with false by (symmetry; apply Z.ltb_ge; exact He).
  rewrite andb_false_r. reflexivity.
Qed.

Lemma scenario_expression (m rate : Q) (months : Z) :
  (0 <= months)%Z -> ~ rate == 0 ->
  (p <- Math_pow (1 + rate) months ;;
   d <- jsdiv (p - 1) rate ;;
   Return (m * d)) = Return (m * annuityFactor rate months).
Proof.
  intros Hm Hr.
  rewrite Math_pow_nonneg_exponent by exact Hm. cbn [bind].
  rewrite jsdiv_nonzero by exact Hr. reflexivity.
Qed.

Lemma paidIn_months (fs : Funds.FundsSettings) :
  Funds.monthlyContribution fs * inject_Z (Funds.termYears fs * 12)
  == Funds.paidIn fs.
Proof.
  unfold Funds.paidIn. rewrite inject_Z_mult. change (inject_Z 12) with 12.
  ring.
Qed.

(** X10.  Wherever [calculateFutureValue] accepts its arguments, the funds
    panel shows the value the helper returns; the panel itself checks
    nothing. *)
Theorem funds_panel_agrees_with_helper
    (fs : Funds.FundsSettings)
    (Hm : 0 <= Funds.monthlyContribution fs)
    (Hr : 0 <= Funds.expectedReturn fs)
    (Hn : (0 <= Funds.termYears fs <= 100)%Z) :
  Funds.projectedEndCapital fs
  = fst (calculateFutureValue (Funds.monthlyContribution fs)
           (Funds.expectedReturn fs) (Funds.termYears fs)).
Proof.
  unfold calculateFutureValue, Funds.projectedEndCapital.
  rewrite calculateFutureValue_try_accepted by assumption.
  destruct (Qeq_bool (Funds.expectedReturn fs / 12) 0) eqn:E; [reflexivity|].
  apply Qeq_bool_neq in E.
  rewrite scenario_expression by (lia || exact E). reflexivity.
Qed.

Lemma funds_panel_agrees_with_helper_witness :
  Funds.projectedEndCapital (Funds.mkFundsSettings 500 25 0.065 false)
  = fst (calculateFutureValue 500 0.065 25).
Proof.
  apply (funds_panel_agrees_with_helper
           (Funds.mkFundsSettings 500 25 0.065 false)).
  - discriminate.
  - discriminate.
  - simpl; lia.
Defined.

(** X11.  With a non-negative contribution and term, the three scenario
    cards are ordered: paid in <= pessimistic (3 %) <= realistic (7 %)
    <= optimistic (10 %). *)
Theorem funds_scenarios_are_ordered
    (fs : Funds.FundsSettings)
    (Hm : 0 <= Funds.monthlyContribution fs)
    (Hn : (0 <= Funds.termYears fs)%Z) :
  exists low mid high,
    Funds.scenarioEndCapital Funds.pessimistic fs = Return low
    /\ Funds.scenarioEndCapital Funds.realistic fs = Return mid
    /\ Funds.scenarioEndCapital Funds.optimistic fs = Return high
    /\ Funds.paidIn fs <= low /\ low <= mid /\ mid <= high.
Proof.
  unfold Funds.scenarioEndCapital.
  rewrite !scenario_expression by (lia || discriminate).
  do 3 eexists. do 3 (split; [reflexivity|]).
  assert (Hgeo : forall a, ~ a / 12 == 0 ->
            annuityFactor (a / 12) (Funds.termYears fs * 12)
            == geometric (1 + a / 12)
                 (Z.to_nat (Funds.termYears fs * 12))).
  { intros a Ha. rewrite <- annuityFactor_geometric by exact Ha.
    rewrite Z2Nat.id by lia. reflexivity. }
  rewrite !Hgeo by discriminate.
  rewrite <- paidIn_months.
  repeat split;
    (apply Qmult_le_compat_nonneg; split;
     [exact Hm | apply Qle_refl | |]).
  - change 0 with (inject_Z 0). rewrite <- Zle_Qle. lia.
  - rewrite <- (Z2Nat.id (Funds.termYears fs * 12)) at 1 by lia.
    apply geometric_ge_length. discriminate.
  - apply geometric_nonneg. discriminate.
  - apply geometric_base_le; discriminate.
  - apply geometric_nonneg. discriminate.
  - apply geometric_base_le; discriminate.
Qed.

Lemma funds_scenarios_are_ordered_witness :
  exists low mid high,
    Funds.scenarioEndCapital Funds.pessimistic
      (Funds.mkFundsSettings 500 2 0.065 false) = Return low
    /\ Funds.scenarioEndCapital Funds.realistic
         (Funds.mkFundsSettings 500 2 0.065 false) = Return mid
    /\ Funds.scenarioEndCapital Funds.optimistic
         (Funds.mkFundsSettings 500 2 0.065 false) = Return high
    /\ Funds.paidIn (Funds.mkFundsSettings 500 2 0.065 false) <= low
    /\ low <= mid /\ mid <= high.
Proof.
  apply (funds_scenarios_are_ordered
           (Funds.mkFundsSettings 500 2 0.065 false)).
  - discriminate.
  - simpl; lia.
Defined.

(** ** The pension estimate of the dashboard *)

Lemma estimated_pension_linear (m : Q) (y : Z) :
  exists v, Dashboard.estimatedPensionFromContributions m y = Return v
    /\ v == m * pensionFactor y.
Proof.
  unfold Dashboard.estimatedPensionFromContributions, pensionFactor.
  destruct (Qeq_bool m 0) eqn:Em; cbn [orb].
  - exists 0. split; [reflexivity|]. apply Qeq_bool_eq in Em.
    rewrite Em. ring.
  - destruct (y <=? 0)%Z eqn:Ey.
    + exists 0. split; [reflexivity|]. ring.
    + rewrite Math_pow_pos by reflexivity. cbn [bind].
      rewrite jsdiv_nonzero by discriminate. cbn [bind].
      eexists. split; [reflexivity|].
      unfold annuityFactor. field.
Qed.

(** X14.  The estimate of the dashboard is the payout, at the 4 %
    withdrawal rate of the comparison, of the value that
    [calculateFutureValue] returns for the same contribution at 4 % a year,
    for every non-negative contribution and 0 to 100 years. *)
Theorem dashboard_estimate_agrees_with_helper
    (m : Q) (y : Z) (Hm : 0 <= m) (Hy : (0 <= y <= 100)%Z) :
  exists e v,
    Dashboard.estimatedPensionFromContributions m y = Return e
    /\ calculateFutureValue m 0.04 y = (Return v, [])
    /\ e == withdrawal v.
Proof.
  destruct (estimated_pension_linear m y) as (e & He & Ee).
  destruct (calculateFutureValue_accepted m 0.04 y Hm ltac:(discriminate) Hy)
    as (v & Hv & Ev).
  exists e, v. split; [exact He|]. split; [exact Hv|].
  rewrite Ee, withdrawal_scale, Ev. unfold pensionFactor.
  destruct (y <=? 0)%Z eqn:E.
  - apply Z.leb_le in E. replace y with 0%Z by lia. simpl. ring.
  - apply Z.leb_gt in E.
    rewrite <- annuityFactor_geometric by discriminate.
    rewrite Z2Nat.id by lia. field.
Qed.

Lemma dashboard_estimate_agrees_with_helper_witness :
  exists e v,
    Dashboard.estimatedPensionFromContributions 200 2 = Return e
    /\ calculateFutureValue 200 0.04 2 = (Return v, [])
    /\ e == withdrawal v.
Proof.
  apply (dashboard_estimate_agrees_with_helper 200 2).
  - discriminate.
  - lia.
Defined.

(** ** The location hook *)

Lemma routing_eqb_eq (a b : Routing.jsstring) :
  Routing.eqb a b = true <-> a = b.
Proof.
  revert b. induction a as [|x a IH]; intros [|y b]; cbn [Routing.eqb];
    try (split; [discriminate|discriminate]); [split; reflexivity|].
  rewrite andb_true_iff, N.eqb_eq, IH. split.
  - intros [-> ->]. reflexivity.
  - intros H. injection H as -> ->. split; reflexivity.
Qed.

Lemma routing_eqb_app (p a b : Routing.jsstring) :
  Routing.eqb (p ++ a)%list (p ++ b)%list = Routing.eqb a b.
Proof.
  induction p as [|x p IH]; [reflexivity|].
  cbn [app Routing.eqb]. rewrite N.eqb_refl, IH. reflexivity.
Qed.

Lemma routing_eqb_app_nil (p a : Routing.jsstring) :
  Routing.eqb (p ++ a)%list p = Routing.eqb a [].
Proof.
  rewrite <- (app_nil_r p) at 2. apply routing_eqb_app.
Qed.

Lemma routing_startsWith_app (p s q : Routing.jsstring) :
  Routing.startsWith (p ++ s)%list (p ++ q)%list = Routing.startsWith s q.
Proof.
  induction p as [|x p IH]; [reflexivity|].
  cbn [app Routing.startsWith]. rewrite N.eqb_refl, IH. reflexivity.
Qed.

Lemma routing_skipn_app (p s : Routing.jsstring) :
  skipn (List.length p) (p ++ s)%list = s.
Proof. induction p as [|x p IH]; [reflexivity|exact IH]. Qed.

Lemma routing_startsWith_skipn (s p q : Routing.jsstring) :
  Routing.startsWith s (p ++ q)%list = true ->
  Routing.startsWith (skipn (List.length p) s) q = true.
Proof.
  revert s. induction p as [|x p IH]; intros s H; [exact H|].
  destruct s as [|c s]; [discriminate H|].
  cbn [app Routing.startsWith] in H. apply andb_true_iff in H as [_ H].
  cbn [List.length skipn]. apply IH, H.
Qed.

Lemma routing_search_has_no_route (search : Routing.jsstring) :
  Routing.isSearch search = true -> Routing.searchRouteMatch search = None.
Proof.
  destruct search as [|c rest]; [reflexivity|].
  cbn [Routing.isSearch Routing.searchRouteMatch]. intros H.
  apply N.eqb_eq in H. subst c. reflexivity.
Qed.

Lemma routing_full_path (prefix top : Routing.jsstring) :
  match (prefix ++ top)%list with
  | [] => top
  | c :: joined => c :: joined
  end = (prefix ++ top)%list.
Proof.
  destruct prefix as [|x prefix]; [destruct top; reflexivity|reflexivity].
Qed.

(** X15.  Navigation and location agree: for every runtime base and every
    target that begins with a slash, the route computed from the URL that
    [navigate] writes to the history is the target itself (the browser
    reporting that URL as its path, with a search that is empty or begins
    with a question mark). *)
Theorem navigate_then_locate
    (runtimeBase top search : Routing.jsstring) (replace : bool)
    (Hsearch : Routing.isSearch search = true)
    (Htop : Routing.startsWith top [Routing.slash] = true) :
  Routing.location runtimeBase search
    (Routing.url (fst (Routing.navigate runtimeBase top replace)))
  = top
  /\ snd (Routing.navigate runtimeBase top replace) = top.
Proof.
  split; [|reflexivity].
  assert (Hurl : forall c, Routing.url (if replace
                                        then Routing.replaceState c
                                        else Routing.pushState c) = c)
    by (intros c; destruct replace; reflexivity).
  unfold Routing.navigate, Routing.location. cbn [fst].
  rewrite Hurl, routing_full_path.
  rewrite (routing_search_has_no_route search Hsearch).
  destruct (Routing.eqb runtimeBase [Routing.slash]
            || Routing.eqb runtimeBase []) eqn:Ebase.
  - replace (negb (Routing.eqb runtimeBase [Routing.slash])
             && negb (Routing.eqb runtimeBase [])) with false.
    + reflexivity.
    + apply orb_true_iff in Ebase as [-> | ->];
        [reflexivity|apply eq_sym, andb_false_r].
  - apply orb_false_elim in Ebase as [E1 E2]. rewrite E1, E2. cbn [negb andb].
    rewrite routing_eqb_app_nil, routing_eqb_app, routing_startsWith_app.
    rewrite Htop, routing_skipn_app.
    destruct top as [|c rest]; [discriminate Htop|].
    cbn [Routing.startsWith] in Htop. apply andb_true_iff in Htop as [Hc _].
    apply N.eqb_eq in Hc. subst c.
    cbn [Routing.eqb]. rewrite N.eqb_refl. cbn [andb orb].
    destruct rest as [|r rest]; reflexivity.
Qed.

Lemma navigate_then_locate_witness :
  Routing.location [47; 97; 112; 112; 47]%N [63; 120]%N
    (Routing.url (fst (Routing.navigate [47; 97; 112; 112; 47]%N
                         [47; 102; 111; 110; 100; 115]%N false)))
  = [47; 102; 111; 110; 100; 115]%N
  /\ snd (Routing.navigate [47; 97; 112; 112; 47]%N
            [47; 102; 111; 110; 100; 115]%N false)
     = [47; 102; 111; 110; 100; 115]%N.
Proof.
  apply (navigate_then_locate [47; 97; 112; 112; 47]%N
           [47; 102; 111; 110; 100; 115]%N [63; 120]%N false).
  - reflexivity.
  - reflexivity.
Defined.

(** X16.  The route is never read from the query string: for every search
    that is empty or begins with a question mark, the location is the one
    computed from the path alone, because the pattern of the hook asks for
    a slash at the start of the search. *)
Theorem search_route_is_never_used
    (runtimeBase search pathname : Routing.jsstring)
    (Hsearch : Routing.isSearch search = true) :
  Routing.searchRouteMatch search = None
  /\ Routing.location runtimeBase search pathname
     = Routing.location runtimeBase [] pathname.
Proof.
  pose proof (routing_search_has_no_route search Hsearch) as H.
  split; [exact H|]. unfold Routing.location. rewrite H. reflexivity.
Qed.

Lemma search_route_is_never_used_witness :
  Routing.searchRouteMatch [63; 47; 102; 111; 110; 100; 115]%N = None
  /\ Routing.location [47; 97; 112; 112; 47]%N
       [63; 47; 102; 111; 110; 100; 115]%N [47; 97; 112; 112; 47]%N
     = Routing.location [47; 97; 112; 112; 47]%N []
         [47; 97; 112; 112; 47]%N.
Proof.
  apply (search_route_is_never_used [47; 97; 112; 112; 47]%N
           [63; 47; 102; 111; 110; 100; 115]%N [47; 97; 112; 112; 47]%N).
  reflexivity.
Defined.

(** X17.  The route handed to the router begins with a slash whenever the
    path of the browser does, whatever the runtime base is. *)
Theorem location_begins_with_slash
    (runtimeBase search pathname : Routing.jsstring)
    (Hsearch : Routing.isSearch search = true)
    (Hpath : Routing.startsWith pathname [Routing.slash] = true) :
  Routing.startsWith (Routing.location runtimeBase search pathname)
    [Routing.slash] = true.
Proof.
  unfold Routing.location.
  rewrite (routing_search_has_no_route search Hsearch).
  destruct (Routing.eqb runtimeBase [Routing.slash]
            || Routing.eqb runtimeBase []); [exact Hpath|].
  destruct (Routing.eqb pathname (Routing.removeTrailingSlash runtimeBase)
            || Routing.eqb pathname
                 (Routing.removeTrailingSlash runtimeBase
                  ++ [Routing.slash])%list); [reflexivity|].
  destruct (Routing.startsWith pathname
              (Routing.removeTrailingSlash runtimeBase
               ++ [Routing.slash])%list) eqn:E; [|exact Hpath].
  apply routing_startsWith_skipn, E.
Qed.

Lemma location_begins_with_slash_witness :
  Routing.startsWith
    (Routing.location [47; 97; 112; 112; 47]%N []
       [47; 97; 112; 112; 47; 102]%N)
    [Routing.slash] = true.
Proof.
  apply (location_begins_with_slash [47; 97; 112; 112; 47]%N []
           [47; 97; 112; 112; 47; 102]%N).
  - reflexivity.
  - reflexivity.
Defined.

(** ** The editable result figures *)

Lemma orElse_zero (a b : Q) : a == 0 -> Editing.orElse a b = b.
Proof.
  intros H. unfold Editing.orElse. apply Qeq_eq_bool in H. rewrite H.
  reflexivity.
Qed.

Lemma orElse_nonzero (a b : Q) : ~ a == 0 -> Editing.orElse a b = a.
Proof.
  intros H. unfold Editing.orElse.
  destruct (Qeq_bool a 0) eqn:E; [|reflexivity].
  apply Qeq_bool_eq in E. contradiction.
Qed.

Lemma assign_same {A : Type} (object : Editing.Field -> A)
    (field : Editing.Field) (entry : A) :
  Editing.assign object field entry field = entry.
Proof. unfold Editing.assign. destruct field; reflexivity. Qed.

Lemma assign_other {A : Type} (object : Editing.Field -> A)
    (field key : Editing.Field) (entry : A) :
  key <> field -> Editing.assign object field entry key = object key.
Proof.
  intros H. unfold Editing.assign.
  destruct key, field; try reflexivity; contradiction H; reflexivity.
Qed.

(** X18.  The shown figure is frozen by the first result: starting from a
    figure that shows 0, once a simulation delivers a non-zero number, a
    later simulation updates [originalValue] only, and [value] keeps the
    first number. *)
Theorem shown_value_is_frozen
    (s : Editing.State) (first second : Editing.SimulationKpis)
    (field : Editing.Field)
    (Hfresh : Editing.value (Editing.editableValues s field) == 0)
    (Hfirst : ~ Dashboard.orZero (Editing.kpiOf first field) == 0) :
  let after :=
    Editing.resultsChanged (Some second)
      (Editing.resultsChanged (Some first) s) in
  Editing.value (Editing.editableValues after field)
  = Dashboard.orZero (Editing.kpiOf first field)
  /\ Editing.originalValue (Editing.editableValues after field)
     = Dashboard.orZero (Editing.kpiOf second field)
  /\ Editing.isEditing (Editing.editableValues after field)
     = Editing.isEditing (Editing.editableValues s field).
Proof.
  cbn [Editing.resultsChanged Editing.editableValues Editing.value
       Editing.originalValue Editing.isEditing].
  rewrite (orElse_zero _ _ Hfresh), (orElse_nonzero _ _ Hfirst).
  repeat split.
Qed.

Lemma shown_value_is_frozen_witness :
  let after :=
    Editing.resultsChanged
      (Some (Editing.mkSimulationKpis (Some 900) None None None))
      (Editing.resultsChanged
         (Some (Editing.mkSimulationKpis (Some 1200) None None None))
         Editing.initialState) in
  Editing.value (Editing.editableValues after Editing.monthlyPension)
  = Dashboard.orZero (Some 1200)
  /\ Editing.originalValue
       (Editing.editableValues after Editing.monthlyPension)
     = Dashboard.orZero (Some 900)
  /\ Editing.isEditing (Editing.editableValues after Editing.monthlyPension)
     = false.
Proof.
  apply (shown_value_is_frozen Editing.initialState
           (Editing.mkSimulationKpis (Some 1200) None None None)
           (Editing.mkSimulationKpis (Some 900) None None None)
           Editing.monthlyPension).
  - reflexivity.
  - discriminate.
Defined.

(** X19.  A saved figure and the next result: a number that
    [handleEditSave] accepts (not negative, and at most 1 for the effective
    return) is stored, ends the editing and clears the error of the field;
    the next simulation result leaves it in place when it is not 0, and
    replaces it by the result when it is 0. *)
Theorem saved_value_and_next_result
    (parseFloat : string -> option Q)
    (s : Editing.State) (field : Editing.Field) (v : Q)
    (kpis : Editing.SimulationKpis)
    (Hparse : parseFloat (Editing.tempEditValues s field) = Some v)
    (Hnonneg : 0 <= v)
    (Hreturn : field = Editing.effectiveReturn -> v <= 1) :
  let saved := Editing.handleEditSave parseFloat field s in
  let after := Editing.resultsChanged (Some kpis) saved in
  Editing.editableValues saved field
  = Editing.mkEditable false v
      (Editing.originalValue (Editing.editableValues s field))
  /\ Editing.validationErrors saved field = Some EmptyString
  /\ (~ v == 0 -> Editing.value (Editing.editableValues after field) = v)
  /\ (v == 0 ->
      Editing.value (Editing.editableValues after field)
      = Dashboard.orZero (Editing.kpiOf kpis field)).
Proof.
  assert (Hsave : Editing.handleEditSave parseFloat field s
    = {| Editing.editableValues :=
           Editing.assign (Editing.editableValues s) field
             (Editing.mkEditable false v
                (Editing.originalValue (Editing.editableValues s field)));
         Editing.tempEditValues := Editing.tempEditValues s;
         Editing.validationErrors :=
           Editing.assign (Editing.validationErrors s) field
             (Some EmptyString);
         Editing.focusedField := None;
         Editing.isLoading := false |}).
  { unfold Editing.handleEditSave. rewrite Hparse.
    apply lessThan_false in Hnonneg. rewrite Hnonneg. cbn [orb].
    destruct (Editing.Field_eqb field Editing.effectiveReturn) eqn:E;
      [|reflexivity].
    assert (Hf : field = Editing.effectiveReturn)
      by (destruct field; (discriminate E || reflexivity)).
    apply Hreturn, greaterThan_false in Hf. rewrite Hf. reflexivity. }
  cbv zeta. rewrite Hsave.
  cbn [Editing.resultsChanged Editing.editableValues Editing.value
       Editing.validationErrors].
  rewrite !assign_same. cbn [Editing.value].
  repeat split.
  - intros Hv. apply orElse_nonzero, Hv.
  - intros Hv. apply orElse_zero, Hv.
Qed.

Lemma saved_value_and_next_result_witness :
  let parse := fun _ : string => Some 1500 in
  let saved :=
    Editing.handleEditSave parse Editing.finalPayout Editing.initialState in
  let after :=
    Editing.resultsChanged
      (Some (Editing.mkSimulationKpis None (Some 2000) None None)) saved in
  Editing.editableValues saved Editing.finalPayout
  = Editing.mkEditable false 1500
      (Editing.originalValue
         (Editing.editableValues Editing.initialState Editing.finalPayout))
  /\ Editing.validationErrors saved Editing.finalPayout = Some EmptyString
  /\ (~ 1500 == 0 ->
      Editing.value (Editing.editableValues after Editing.finalPayout) = 1500)
  /\ (1500 == 0 ->
      Editing.value (Editing.editableValues after Editing.finalPayout)
      = Dashboard.orZero
          (Editing.kpiOf
             (Editing.mkSimulationKpis None (Some 2000) None None)
             Editing.finalPayout)).
Proof.
  apply (saved_value_and_next_result (fun _ : string => Some 1500)
           Editing.initialState Editing.finalPayout 1500
           (Editing.mkSimulationKpis None (Some 2000) None None)).
  - reflexivity.
  - discriminate.
  - discriminate.
Defined.

(** X20.  A rejected save changes nothing but the error of its field: when
    the text is not a number, or the number is negative, or it is an
    effective return above 1, the figures, the texts, the focus and the
    errors of the other fields stay as they are, and the field gets an
    error message that is not empty. *)
Theorem rejected_save_only_sets_the_error
    (parseFloat : string -> option Q)
    (s : Editing.State) (field : Editing.Field)
    (Hreject :
       match parseFloat (Editing.tempEditValues s field) with
       | None => True
       | Some v => v < 0 \/ (field = Editing.effectiveReturn /\ 1 < v)
       end) :
  let saved := Editing.handleEditSave parseFloat field s in
  Editing.editableValues saved = Editing.editableValues s
  /\ Editing.tempEditValues saved = Editing.tempEditValues s
  /\ Editing.focusedField saved = Editing.focusedField s
  /\ Editing.isLoading saved = Editing.isLoading s
  /\ (forall other, other <> field ->
        Editing.validationErrors saved other
        = Editing.validationErrors s other)
  /\ (exists message,
        Editing.validationErrors saved field = Some message
        /\ message <> EmptyString).
Proof.
  assert (Hr : exists message,
            Editing.handleEditSave parseFloat field s
            = Editing.reject field message s /\ message <> EmptyString).
  { unfold Editing.handleEditSave.
    destruct (parseFloat (Editing.tempEditValues s field)) as [v|].
    - destruct (lessThan v 0) eqn:Eneg.
      + eexists. split; [reflexivity|discriminate].
      + apply lessThan_false in Eneg.
        destruct Hreject as [Hneg|[-> Hbig]]; [exfalso; lra|].
        apply greaterThan_spec in Hbig. rewrite Hbig. cbn.
        eexists. split; [reflexivity|discriminate].
    - eexists. split; [reflexivity|discriminate]. }
  destruct Hr as (message & -> & Hmessage). cbv zeta.
  cbn [Editing.reject Editing.editableValues Editing.tempEditValues
       Editing.focusedField Editing.isLoading Editing.validationErrors].
  repeat split.
  - intros other Hother. apply assign_other, Hother.
  - exists message. split; [apply assign_same|exact Hmessage].
Qed.

Lemma rejected_save_only_sets_the_error_witness :
  let parse := fun _ : string => Some (-5) in
  let saved :=
    Editing.handleEditSave parse Editing.totalCosts Editing.initialState in
  Editing.editableValues saved = Editing.editableValues Editing.initialState
  /\ Editing.tempEditValues saved
     = Editing.tempEditValues Editing.initialState
  /\ Editing.focusedField saved = Editing.focusedField Editing.initialState
  /\ Editing.isLoading saved = Editing.isLoading Editing.initialState
  /\ (forall other, other <> Editing.totalCosts ->
        Editing.validationErrors saved other
        = Editing.validationErrors Editing.initialState other)
  /\ (exists message,
        Editing.validationErrors saved Editing.totalCosts = Some message
        /\ message <> EmptyString).
Proof.
  apply (rejected_save_only_sets_the_error (fun _ : string => Some (-5))
           Editing.initialState Editing.totalCosts).
  left. reflexivity.
Defined.

(** ** Schema, validation and prefill of the form *)

Lemma between_spec (lo hi x : Q) :
  Form.between lo hi x = true <-> lo <= x /\ x <= hi.
Proof.
  unfold Form.between. rewrite andb_true_iff, !Qle_bool_iff. reflexivity.
Qed.

Lemma Math_max_spec (a b : Q) :
  a <= Math_max a b /\ b <= Math_max a b
  /\ (Math_max a b = a \/ Math_max a b = b).
Proof.
  unfold Math_max. destruct (Qle_bool a b) eqn:E.
  - apply Qle_bool_iff in E. repeat split; [exact E|apply Qle_refl|].
    right. reflexivity.
  - assert (b < a).
    { apply Qnot_le_lt. intros H. apply Qle_bool_iff in H. congruence. }
    repeat split; [apply Qle_refl|lra|]. left. reflexivity.
Qed.

(** X21.  The schema of the form implies the age and contribution checks
    of [validateFormData] but not its payout check: on a form that
    satisfies [formSchema] the only possible entry of [errors] is
    [payoutStartAge], and it is present exactly when the payout does not
    start before it ends. *)
Theorem schema_leaves_payout_order_open
    (data : Form.FormData) (Hschema : Form.formSchema data = true) :
  (Form.payoutStartAge data < Form.payoutEndAge data
   /\ Form.validateFormData data = [])
  \/ (Form.payoutEndAge data <= Form.payoutStartAge data
      /\ Form.validateFormData data
         = [("payoutStartAge"%string,
             "Rentenbeginn muss vor Rentenende liegen"%string)]).
Proof.
  unfold Form.formSchema in Hschema. rewrite !andb_true_iff in Hschema.
  destruct Hschema as [[[[[[[[[Hage _] _] Hm] _] _] _] _] _] _].
  apply between_spec in Hage as [Hlo Hhi].
  apply Qle_bool_iff in Hm.
  unfold Form.validateFormData.
  apply lessThan_false in Hlo. apply greaterThan_false in Hhi.
  apply lessThan_false in Hm. rewrite Hlo, Hhi, Hm. cbn [orb app].
  destruct (Qle_bool (Form.payoutEndAge data) (Form.payoutStartAge data))
    eqn:E.
  - right. apply Qle_bool_iff in E. split; [exact E|reflexivity].
  - left. split; [|reflexivity]. apply Qnot_le_lt. intros H.
    apply Qle_bool_iff in H. congruence.
Qed.

Lemma schema_leaves_payout_order_open_witness :
  (Form.payoutStartAge
     (Form.mkFormData 30 30 30 500 10000 None 70 65 Form.annuity 0.025
        (Some 0.035))
   < Form.payoutEndAge
       (Form.mkFormData 30 30 30 500 10000 None 70 65 Form.annuity 0.025
          (Some 0.035))
   /\ Form.validateFormData
        (Form.mkFormData 30 30 30 500 10000 None 70 65 Form.annuity 0.025
           (Some 0.035)) = [])
  \/ (Form.payoutEndAge
        (Form.mkFormData 30 30 30 500 10000 None 70 65 Form.annuity 0.025
           (Some 0.035))
      <= Form.payoutStartAge
           (Form.mkFormData 30 30 30 500 10000 None 70 65 Form.annuity 0.025
              (Some 0.035))
      /\ Form.validateFormData
           (Form.mkFormData 30 30 30 500 10000 None 70 65 Form.annuity 0.025
              (Some 0.035))
         = [("payoutStartAge"%string,
             "Rentenbeginn muss vor Rentenende liegen"%string)]).
Proof.
  apply (schema_leaves_payout_order_open
           (Form.mkFormData 30 30 30 500 10000 None 70 65 Form.annuity 0.025
              (Some 0.035))).
  reflexivity.
Defined.

(** X22.  The form prefilled from the onboarding data has a term of at
    least 5 years that reaches the age of 67 at the earliest, and it
    satisfies [formSchema] exactly for an age from 22 to 80 and a
    contribution that is not negative: below 22 the term
    [Math.max(5, 67 - age)] exceeds the 45 years the schema allows. *)
Theorem prefilled_form_and_schema
    (age contribution : option Q) (isCompleted : bool) (data : Form.FormData)
    (Hprefill : Form.prefill age contribution isCompleted = Some data) :
  5 <= Form.termYears data
  /\ 67 <= Form.currentAge data + Form.termYears data
  /\ (Form.formSchema data = true
      <-> 22 <= Form.currentAge data <= 80
          /\ 0 <= Form.monthlyContribution data).
Proof.
  unfold Form.prefill in Hprefill.
  destruct (isCompleted || (Form.truthy age && Form.truthy contribution));
    [|discriminate Hprefill].
  injection Hprefill as <-.
  cbn [Form.termYears Form.currentAge Form.monthlyContribution].
  set (a := Form.orDefault age 30). set (c := Form.orDefault contribution 500).
  destruct (Math_max_spec 5 (67 - a)) as (H5 & H67 & Hcase).
  split; [exact H5|]. split; [lra|].
  unfold Form.formSchema.
  cbn [Form.termYears Form.currentAge Form.monthlyContribution Form.startAge
       Form.startInvestment Form.targetMaturityValue Form.payoutStartAge
       Form.payoutEndAge Form.annuityRate Form.safeWithdrawalRate
       Form.optionally].
  fold a c.
  replace (Form.atLeast 0 10000) with true by reflexivity.
  replace (Form.between 62 85 67) with true by reflexivity.
  replace (Form.between 62 85 85) with true by reflexivity.
  replace (Form.between 0 1 0.025) with true by reflexivity.
  replace (Form.between 0 1 0.035) with true by reflexivity.
  rewrite !andb_true_r, !andb_true_iff, !between_spec.
  unfold Form.atLeast. rewrite Qle_bool_iff.
  split.
  - intros [[[[H18 H80] _] [_ H45]] Hc]. repeat split; try assumption.
    destruct Hcase as [E|E]; rewrite E in H45, H67; lra.
  - intros [[H22 H80] Hc]. repeat split; try assumption; try lra.
    destruct Hcase as [E|E]; rewrite E; [discriminate|lra].
Qed.

Lemma prefilled_form_and_schema_witness :
  5 <= Form.termYears
         (Form.mkFormData 20 20 (Math_max 5 (67 - 20)) 300 10000 None 67 85
            Form.annuity 0.025 (Some 0.035))
  /\ 67 <= Form.currentAge
             (Form.mkFormData 20 20 (Math_max 5 (67 - 20)) 300 10000 None 67
                85 Form.annuity 0.025 (Some 0.035))
           + Form.termYears
               (Form.mkFormData 20 20 (Math_max 5 (67 - 20)) 300 10000 None
                  67 85 Form.annuity 0.025 (Some 0.035))
  /\ (Form.formSchema
        (Form.mkFormData 20 20 (Math_max 5 (67 - 20)) 300 10000 None 67 85
           Form.annuity 0.025 (Some 0.035)) = true
      <-> 22 <= Form.currentAge
                  (Form.mkFormData 20 20 (Math_max 5 (67 - 20)) 300 10000
                     None 67 85 Form.annuity 0.025 (Some 0.035)) <= 80
          /\ 0 <= Form.monthlyContribution
                    (Form.mkFormData 20 20 (Math_max 5 (67 - 20)) 300 10000
                       None 67 85 Form.annuity 0.025 (Some 0.035))).
Proof.
  apply (prefilled_form_and_schema (Some 20) (Some 300) false).
  reflexivity.
Defined.
